(** * Marine-data dashboard: the dataset loading pipeline

    A shallow embedding of [src/script.js] ([loadDataset]) and of the slider
    wiring of [src/unnamed/part_001] ([initializeSliders]), together with
    the Range Filter of the specification, whose code ([applyFilters]) is
    called from [part_001] but is not part of the sources.

    - JavaScript strings are sequences of UTF-16 code units: [list N].
    - JavaScript Numbers are IEEE 754 binary64 values: [spec_float] at
      precision 53 and maximal exponent 1024.
    - JavaScript objects used as dictionaries (a parsed CSV row, a
      normalised record, [datasetsConfig], the elements of the document
      by id) are finite maps ([gmap]).
    - A range input of the page holds an integer, which it keeps within
      its [min] and [max]. *)

From Stdlib Require Import ZArith NArith List String Ascii Bool Lia.
From Stdlib Require Import SpecFloat.
From stdpp Require Import gmap list.
Import ListNotations.

Set Warnings "-register-all".

Local Open Scope Z_scope.

(** ** Strings *)

Abbreviation jsstring := (list N).

(** The code units of an ASCII literal. *)
Definition str (s : string) : jsstring :=
  List.map N_of_ascii (list_ascii_of_string s).

Definition ch (a : ascii) : N := N_of_ascii a.

(** ECMAScript [WhiteSpace] and [LineTerminator] code points: the characters
    [String.prototype.trim] and [parseInt] strip.  TAB, LF, VT, FF, CR, SP,
    NBSP, U+1680, U+2000..U+200A, U+2028, U+2029, U+202F, U+205F, U+3000
    and U+FEFF. *)
Definition isWhiteSpace (c : N) : bool :=
  existsb (N.eqb c)
    [9; 10; 11; 12; 13; 32; 160; 5760; 8232; 8233; 8239; 8287; 12288; 65279]%N
  || ((8192 <=? c)%N && (c <=? 8202)%N).

Fixpoint trimStart (s : jsstring) : jsstring :=
  match s with
  | [] => []
  | c :: r => if isWhiteSpace c then trimStart r else s
  end.

Definition trimEnd (s : jsstring) : jsstring := rev (trimStart (rev s)).

(** [String.prototype.trim] *)
Definition trim (s : jsstring) : jsstring := trimEnd (trimStart s).

(** [ToString] of a value that is a string or [undefined] (a missing
    property reads as [undefined]). *)
Definition ToString (v : option jsstring) : jsstring :=
  match v with
  | Some s => s
  | None => str "undefined"
  end.

(** [s.replace(/-/g, ' ')] *)
Definition replaceDashes (s : jsstring) : jsstring :=
  List.map (fun c => if (c =? ch "-")%N then ch " " else c) s.

(** ** Numbers *)

Abbreviation number := spec_float.

Definition NaN : number := S754_nan.
Definition posZero : number := S754_zero false.
Definition negZero : number := S754_zero true.

(** The Number value for a mathematical integer: round to nearest, ties to
    even, overflowing to an infinity. *)
Definition number_of_Z (z : Z) : number := binary_normalize 53 1024 z 0 false.

(** [ToBoolean] on Numbers: [+0], [-0] and [NaN] are falsy. *)
Definition truthy (x : number) : bool :=
  match x with
  | S754_zero _ | S754_nan => false
  | _ => true
  end.

(** [a || b] where [a] is a Number *)
Definition orNumber (a b : number) : number := if truthy a then a else b.

Definition isNaN (x : number) : bool :=
  match x with S754_nan => true | _ => false end.

(** The relational operators, as ECMAScript defines them from [IsLessThan]:
    [a > b] is [b < a]; [a <= b] is "[b < a] is neither true nor undefined";
    [a >= b] is "[a < b] is neither true nor undefined". *)
Definition js_lt (a b : number) : bool := SFltb a b.
Definition js_gt (a b : number) : bool := SFltb b a.
Definition js_le (a b : number) : bool :=
  negb (isNaN a) && negb (isNaN b) && negb (SFltb b a).
Definition js_ge (a b : number) : bool :=
  negb (isNaN a) && negb (isNaN b) && negb (SFltb a b).

(** *** parseInt *)

Definition digitValue (c : N) : option Z :=
  if ((48 <=? c) && (c <=? 57))%N then Some (Z.of_N (c - 48))
  else if ((97 <=? c) && (c <=? 122))%N then Some (Z.of_N (c - 87))
  else if ((65 <=? c) && (c <=? 90))%N then Some (Z.of_N (c - 55))
  else None.

Definition radixDigit (R : Z) (c : N) : option Z :=
  match digitValue c with
  | Some d => if d <? R then Some d else None
  | None => None
  end.

(** The values of the longest prefix of [s] made of radix-[R] digits. *)
Fixpoint digitsPrefix (R : Z) (s : jsstring) : list Z :=
  match s with
  | [] => []
  | c :: r =>
      match radixDigit R c with
      | Some d => d :: digitsPrefix R r
      | None => []
      end
  end.

Definition mathInt (R : Z) (ds : list Z) : Z :=
  fold_left (fun acc d => acc * R + d) ds 0.

(** The sign and the rest of the text once a leading [+] or [-] is read. *)
Definition readSign (s : jsstring) : Z * jsstring :=
  match s with
  | c :: r =>
      if (c =? ch "-")%N then (-1, r)
      else if (c =? ch "+")%N then (1, r)
      else (1, s)
  | [] => (1, s)
  end.

(** With no radix argument the radix is 16 after a [0x] or [0X] prefix,
    which is removed, and 10 otherwise. *)
Definition readRadix (s : jsstring) : Z * jsstring :=
  match s with
  | c0 :: c1 :: r =>
      if ((c0 =? ch "0") && ((c1 =? ch "x") || (c1 =? ch "X")))%N
      then (16, r) else (10, s)
  | _ => (10, s)
  end.

(** [parseInt(v)], called with one argument.  The digits are read exactly,
    whatever their number. *)
Definition parseInt (v : option jsstring) : number :=
  let inputString := ToString v in
  let '(sign, S1) := readSign (trimStart inputString) in
  let '(R, S2) := readRadix S1 in
  match digitsPrefix R S2 with
  | [] => NaN
  | ds =>
      let n := mathInt R ds in
      if n =? 0 then (if sign =? -1 then negZero else posZero)
      else number_of_Z (sign * n)
  end.

(** *** Year texts *)

Definition isDecimalDigit (c : N) : bool := ((48 <=? c) && (c <=? 57))%N.

(** The integer a run of decimal digits denotes. *)
Definition decimalValue (ds : jsstring) : Z :=
  fold_left (fun acc c => 10 * acc + Z.of_N (c - 48)) ds 0.

Inductive Sign := NoSign | Plus | Minus.

Definition signText (sg : Sign) : jsstring :=
  match sg with
  | NoSign => []
  | Plus => [ch "+"]
  | Minus => [ch "-"]
  end.

Definition signValue (sg : Sign) : Z :=
  match sg with Minus => -1 | _ => 1 end.

Definition startsWithDigit (s : jsstring) : bool :=
  match s with
  | c :: _ => isDecimalDigit c
  | [] => false
  end.

(** The text opens a hexadecimal literal: [0x] or [0X]. *)
Definition startsHex (s : jsstring) : bool :=
  match s with
  | c0 :: c1 :: _ => ((c0 =? ch "0") && ((c1 =? ch "x") || (c1 =? ch "X")))%N
  | _ => false
  end.




(** ** Records *)

(** The values a normalised record holds. *)
Inductive value :=
  | VStr (s : jsstring)
  | VNum (n : number).

(** A parsed CSV row: header to raw text. *)
Abbreviation Row := (gmap jsstring jsstring).
(** A normalised record: property name to value. *)
Abbreviation Record := (gmap jsstring value).

Definition sentinel : jsstring := str "Desconhecido".
Definition kEntity : jsstring := str "Entity".
Definition kYear : jsstring := str "Year".

(** [Object.fromEntries]: a later entry overwrites an earlier one. *)
Definition fromEntries (l : list (jsstring * value)) : Record :=
  fold_left (fun m kv => <[fst kv := snd kv]> m) l ∅.

(** [x || d] where [x] is a string or [undefined]: the empty string and
    [undefined] are falsy. *)
Definition orString (x : option jsstring) (d : jsstring) : jsstring :=
  match x with
  | Some (c :: r) => c :: r
  | _ => d
  end.

(** The part of a dataset's configuration that [loadDataset] reads.
    [columnMap] is [Object.entries(config.columnMap)], in its order. *)
Record Config := mkConfig {
  metadataPath : jsstring;
  csvPath : jsstring;
  columnMap : list (jsstring * jsstring);
  minYear : number;
  maxYear : number;
  el_loader : jsstring;
  el_citation : jsstring;
  data : list Record
}.

(** ** The document, the network and the host *)

(** What an element shows: the last write was to [innerHTML] or to
    [textContent]. *)
Inductive Content :=
  | Html (s : jsstring)
  | Text (s : jsstring).

Record Element := mkElement {
  content : Content;
  styleDisplay : jsstring
}.

(** A thrown value, with the text [error.message] renders in a template. *)
Record Error := mkError { message : jsstring }.

(** The value [response.json()] resolves to.  A later duplicate key of an
    object overwrites an earlier one. *)
Inductive json :=
  | JNull
  | JBool (b : bool)
  | JNum (n : number)
  | JStr (s : jsstring)
  | JArr (items : list json)
  | JObj (fields : list (jsstring * json)).

(** A fetched response: what [json()] and [text()] settle to, and its [ok]
    flag (a status from 200 to 299).  [fetch] fulfils with a response
    whatever its status; the sources read [ok] and [status] nowhere. *)
Record Response := mkResponse {
  resp_json : Error + json;
  resp_text : Error + jsstring;
  resp_ok : bool
}.

(** The console, one entry per call:
    [LogStart k] is line 6, [LogProcessed k n] is line 30 with
    [n = config.data.length], [LogError k e] is line 40. *)
Inductive LogEntry :=
  | LogStart (datasetKey : jsstring)
  | LogProcessed (datasetKey : jsstring) (n : nat)
  | LogError (datasetKey : jsstring) (e : Error).

(** The state [loadDataset] reads and writes: the global [datasetsConfig],
    the elements of the document by id, the [disabled] flag of the first
    [.apply-btn] of each dataset, the console and the requests sent. *)
Record Store := mkStore {
  datasetsConfig : gmap jsstring Config;
  elements : gmap jsstring Element;
  applyBtns : gmap jsstring bool;
  console : list LogEntry;
  requests : list jsstring
}.

(** Computations that read and write the store and may throw. *)
Definition M (A : Type) : Type := Store -> (Error + A) * Store.

(** Papa.parse on a text either calls [complete] with the rows or calls
    [error].  The library calls [error] for a file or a download that it
    cannot read; for a text it calls [complete] with the rows it could
    read and lists what it met in [results.errors], which script.js does
    not read. *)
Inductive PapaOutcome :=
  | Complete (rows : list Row)
  | ParseError (e : Error).

(** What the code takes from its environment: the builtins it calls, the
    network, Papa Parse, and [initializeFilters], which script.js calls
    and does not define.  [fetch] may answer by the requests sent so far;
    [typeError p] is the TypeError of an access to property [p] of [null]
    or [undefined]; [jsonToString] is [ToString] on a truthy value that is
    not a string. *)
Class Host := mkHost {
  parseFloat : jsstring -> number;
  jsonToString : json -> jsstring;
  typeError : jsstring -> Error;
  fetch : list jsstring -> jsstring -> Error + Response;
  Papa_parse : jsstring -> PapaOutcome;
  initializeFilters : jsstring -> M unit
}.

(** ** The Row Normalizer and the filter of the Loader *)

Section Normalizer.

Context {host : Host}.

(** script.js, line 26: one column of the mapping. *)
Definition columnEntry (row : Row) (p : jsstring * jsstring)
    : jsstring * value :=
  let '(original, newName) := p in
  (newName, VNum (orNumber (parseFloat (ToString (row !! original))) posZero)).

(** script.js, lines 22-27: the object built for one row.  The spread of
    the columns comes last and so overrides [Entity] and [Year] on a
    clash of names. *)
Definition normalizeRow (config : Config) (row : Row) : Record :=
  fromEntries (List.map (columnEntry row) (columnMap config))
  ∪ <[kEntity := VStr (trim (orString (row !! kEntity) sentinel))]>
      (<[kYear := VNum (orNumber (parseInt (row !! kYear)) posZero)]> ∅).

(** [row.Entity !== 'Desconhecido'] *)
Definition entityNotSentinel (r : Record) : bool :=
  match r !! kEntity with
  | Some (VStr s) => negb (bool_decide (s = sentinel))
  | _ => true
  end.

(** The Number read at [row.Year]; [undefined] converts to [NaN].  The
    normaliser always writes a Number there: no text reaches the
    comparisons of the filter. *)
Definition yearNumber (r : Record) : number :=
  match r !! kYear with
  | Some (VNum n) => n
  | _ => NaN
  end.

(** script.js, line 28: the predicate of the filter. *)
Definition keepRow (config : Config) (r : Record) : bool :=
  entityNotSentinel r
  && js_ge (yearNumber r) (minYear config)
  && js_le (yearNumber r) (maxYear config).

(** script.js, lines 22-28: the value assigned to [config.data]. *)
Definition processRows (config : Config) (rows : list Row) : list Record :=
  List.filter (keepRow config) (List.map (normalizeRow config) rows).

End Normalizer.

(** ** loadDataset *)

#[global] Instance M_ret : MRet M := fun A x st => (inr x, st).

#[global] Instance M_bind : MBind M := fun A B f m st =>
  match m st with
  | (inr x, st') => f x st'
  | (inl e, st') => (inl e, st')
  end.

Definition throw {A} (e : Error) : M A := fun st => (inl e, st).

(** Settle a promise that is already decided. *)
Definition settle {A} (r : Error + A) : M A := fun st => (r, st).

Definition setData (recs : list Record) (c : Config) : Config :=
  mkConfig (metadataPath c) (csvPath c) (columnMap c) (minYear c) (maxYear c)
           (el_loader c) (el_citation c) recs.

Definition withConfigs (f : gmap jsstring Config -> gmap jsstring Config)
    (st : Store) : Store :=
  mkStore (f (datasetsConfig st)) (elements st) (applyBtns st) (console st)
          (requests st).

Definition withElements (f : gmap jsstring Element -> gmap jsstring Element)
    (st : Store) : Store :=
  mkStore (datasetsConfig st) (f (elements st)) (applyBtns st) (console st)
          (requests st).

Definition withBtns (f : gmap jsstring bool -> gmap jsstring bool)
    (st : Store) : Store :=
  mkStore (datasetsConfig st) (elements st) (f (applyBtns st)) (console st)
          (requests st).

Definition modify (f : Store -> Store) : M unit := fun st => (inr tt, f st).

Definition log (e : LogEntry) : M unit :=
  modify (fun st =>
    mkStore (datasetsConfig st) (elements st) (applyBtns st)
            (console st ++ [e]) (requests st)).

Definition setContent (c : Content) (e : Element) : Element :=
  mkElement c (styleDisplay e).

Definition setDisplay (d : jsstring) (e : Element) : Element :=
  mkElement (content e) d.

(** How a call of [loadDataset] ended: [Loaded] when the [try] block ran to
    its end, [Failed e] when the [catch] block handled [e] (the promise is
    fulfilled in both cases), [Rejected e] when [e] was thrown before the
    [try] block and rejects the promise. *)
Inductive LoadOutcome :=
  | Loaded
  | Failed (e : Error)
  | Rejected (e : Error).

Section Loader.

Context {host : Host}.

(** [document.getElementById(id).innerHTML = s]: a TypeError when the
    element is [null]. *)
Definition setInnerHTML (id s : jsstring) : M unit := fun st =>
  match elements st !! id with
  | Some _ => (inr tt, withElements (alter (setContent (Html s)) id) st)
  | None => (inl (typeError (str "innerHTML")), st)
  end.

(** [document.getElementById(id).textContent = s] *)
Definition setTextContent (id s : jsstring) : M unit := fun st =>
  match elements st !! id with
  | Some _ => (inr tt, withElements (alter (setContent (Text s)) id) st)
  | None => (inl (typeError (str "textContent")), st)
  end.

(** [await fetch(url)] *)
Definition doFetch (url : jsstring) : M Response := fun st =>
  (fetch (requests st) url,
   mkStore (datasetsConfig st) (elements st) (applyBtns st) (console st)
           (requests st ++ [url])).

(** Property read on a parsed JSON value that is not [null]; [None] is
    [undefined]. *)
Definition jsonGet (v : json) (k : jsstring) : option json :=
  match v with
  | JObj fields =>
      fold_left
        (fun acc kv => if bool_decide (fst kv = k) then Some (snd kv) else acc)
        fields None
  | _ => None
  end.

(** [ToBoolean] of a property read. *)
Definition jsonTruthy (v : option json) : bool :=
  match v with
  | None | Some JNull => false
  | Some (JBool b) => b
  | Some (JNum n) => truthy n
  | Some (JStr s) => match s with [] => false | _ => true end
  | Some (JArr _) | Some (JObj _) => true
  end.

(** [metadata.chart?.citation] *)
Definition chartCitation (metadata : json) : Error + option json :=
  match metadata with
  | JNull => inl (typeError (str "chart"))
  | _ =>
      match jsonGet metadata (str "chart") with
      | None | Some JNull => inr None
      | Some chart => inr (jsonGet chart (str "citation"))
      end
  end.

Definition defaultCitation (datasetKey : jsstring) : jsstring :=
  str "Fonte: " ++ datasetKey.

(** script.js, line 12: [metadata.chart?.citation || `Fonte: ${datasetKey}`],
    as the text the element receives. *)
Definition citationText (metadata : json) (datasetKey : jsstring)
    : Error + jsstring :=
  match chartCitation metadata with
  | inl e => inl e
  | inr c =>
      if jsonTruthy c then
        match c with
        | Some (JStr s) => inr s
        | Some v => inr (jsonToString v)
        | None => inr (defaultCitation datasetKey)
        end
      else inr (defaultCitation datasetKey)
  end.

(** script.js, lines 21-35: the [complete] callback. *)
Definition onComplete (datasetKey : jsstring) (config : Config)
    (hasBtn : bool) (rows : list Row) : M unit :=
  let recs := processRows config rows in
  modify (withConfigs (<[datasetKey := setData recs config]>)) ;;
  log (LogProcessed datasetKey (length recs)) ;;
  initializeFilters datasetKey ;;
  (if hasBtn then modify (withBtns (<[datasetKey := false]>)) else mret tt) ;;
  modify (withElements (alter (setDisplay (str "none")) (el_loader config))).

(** script.js, lines 9-38: the [try] block. *)
Definition tryBlock (datasetKey : jsstring) (config : Config)
    (hasBtn : bool) : M unit :=
  metaResponse ← doFetch (metadataPath config) ;
  metadata ← settle (resp_json metaResponse) ;
  citation ← settle (citationText metadata datasetKey) ;
  setTextContent (el_citation config) citation ;;
  csvResponse ← doFetch (csvPath config) ;
  csvText ← settle (resp_text csvResponse) ;
  match Papa_parse csvText with
  | Complete rows => onComplete datasetKey config hasBtn rows
  | ParseError e => throw e
  end.

(** script.js, lines 39-42: the [catch] block. *)
Definition catchBlock (datasetKey : jsstring) (config : Config)
    (error : Error) : M unit :=
  log (LogError datasetKey error) ;;
  modify (withElements
            (alter (setContent (Html (str "Erro: " ++ message error)))
                   (el_loader config))).

(** script.js, lines 1-43.  The awaited steps run one after the other on
    the store; what other tasks do between them is outside the model.
    The selector of line 4 is taken to parse, as it does with a key that
    has no quote, backslash or line break: with a key that breaks it
    [document.querySelector] throws a SyntaxError, which rejects the
    promise at line 4, before anything is written. *)
Definition loadDataset (datasetKey : jsstring) (st : Store)
    : LoadOutcome * Store :=
  match datasetsConfig st !! datasetKey with
  | None => (Rejected (typeError (str "elements")), st)
  | Some config =>
      let hasBtn := bool_decide (is_Some (applyBtns st !! datasetKey)) in
      match
        (setInnerHTML (el_loader config)
           (str "Carregando " ++ replaceDashes datasetKey ++ str "...") ;;
         log (LogStart datasetKey)) st
      with
      | (inl e, st1) => (Rejected e, st1)
      | (inr _, st1) =>
          match tryBlock datasetKey config hasBtn st1 with
          | (inr _, st2) => (Loaded, st2)
          | (inl e, st2) =>
              (Failed e, snd (catchBlock datasetKey config e st2))
          end
      end
  end.

End Loader.

(** ** initializeSliders *)

(** [Number::toString] of an integer below 10^21: its decimal digits, most
    significant first, after a minus sign when it is negative. *)
Fixpoint decimalDigits (fuel : nat) (n : Z) : jsstring :=
  match fuel with
  | O => []
  | S fuel' =>
      if n <? 10 then [(48 + Z.to_N n)%N]
      else decimalDigits fuel' (n / 10) ++ [(48 + Z.to_N (n mod 10))%N]
  end.

Definition numeral (z : Z) : jsstring :=
  if z <? 0 then ch "-" :: decimalDigits 21 (- z) else decimalDigits 21 z.

(** The text of a year as a range input with integer bounds and step holds
    it: one to fifteen decimal digits. *)
Definition yearNumeral (v : jsstring) : bool :=
  match v with
  | [] => false
  | _ => forallb isDecimalDigit v && (length v <=? 15)%nat
  end.

(** A range input of the page, as the sources touch it: its [min] and [max]
    attributes and its [value].  The attributes of the max-year slider and
    the [step] of both sliders come from the page, which is not among the
    sources: the page is taken to give integer attributes and the default
    step of 1 (no code sets a step), so that every value is an integer. *)
Record RangeInput := mkRangeInput {
  range_min : Z;
  range_max : Z;
  range_value : Z
}.

(** The value sanitization of a range input, on integers: a value below
    the minimum becomes the minimum; a value above the maximum becomes the
    maximum, when the maximum is not below the minimum.  With a step of 1
    from an integer minimum no integer is off the steps. *)
Definition sanitize (lo hi v : Z) : Z :=
  if v <? lo then lo
  else if (lo <=? hi) && (hi <? v) then hi
  else v.

(** [input.value = v]: the input keeps the sanitized value. *)
Definition setValue (v : Z) (r : RangeInput) : RangeInput :=
  mkRangeInput (range_min r) (range_max r)
               (sanitize (range_min r) (range_max r) v).

(** [input.min = m] and [input.max = m]: the value is sanitized again. *)
Definition setMin (m : Z) (r : RangeInput) : RangeInput :=
  mkRangeInput m (range_max r) (sanitize m (range_max r) (range_value r)).

Definition setMax (m : Z) (r : RangeInput) : RangeInput :=
  mkRangeInput (range_min r) m (sanitize (range_min r) m (range_value r)).

(** [input.value], read: the text of the number. *)
Definition valueText (r : RangeInput) : jsstring := numeral (range_value r).

(** The two range inputs and the two labels of one dataset, under the
    names [initializeSliders] gives them.  A label holds the text last
    assigned to its [textContent]. *)
Record Sliders := mkSliders {
  minYearSlider : RangeInput;
  maxYearSlider : RangeInput;
  minYearDisplay : jsstring;
  maxYearDisplay : jsstring
}.

(** part_001, lines 57-62: the default values.  [s] is what the page
    gives; the range of the max-year slider stays the one of the page. *)
Definition initializeSliders (s : Sliders) : Sliders :=
  mkSliders (setValue 2000 (setMax 2024 (setMin 2000 (minYearSlider s))))
            (setValue 2024 (maxYearSlider s))
            (numeral 2000) (numeral 2024).

(** part_001, lines 64-70: the [input] listener of the min-year slider;
    [this] is that slider.  The text assigned at line 67 is the numeral of
    [this.value], which the max-year slider reads back as that number and
    sanitizes. *)
Definition onMinInput (s : Sliders) : Sliders :=
  let this := minYearSlider s in
  let s1 := mkSliders (minYearSlider s) (maxYearSlider s)
                      (valueText this) (maxYearDisplay s) in
  if js_gt (parseInt (Some (valueText this)))
           (parseInt (Some (valueText (maxYearSlider s1))))
  then mkSliders (minYearSlider s1)
                 (setValue (range_value this) (maxYearSlider s1))
                 (minYearDisplay s1) (valueText this)
  else s1.

(** part_001, lines 71-77: the [input] listener of the max-year slider. *)
Definition onMaxInput (s : Sliders) : Sliders :=
  let this := maxYearSlider s in
  let s1 := mkSliders (minYearSlider s) (maxYearSlider s)
                      (minYearDisplay s) (valueText this) in
  if js_lt (parseInt (Some (valueText this)))
           (parseInt (Some (valueText (minYearSlider s1))))
  then mkSliders (setValue (range_value this) (minYearSlider s1))
                 (maxYearSlider s1)
                 (valueText this) (maxYearDisplay s1)
  else s1.

(** An [input] event: the user moved a slider towards [v].  The slider
    holds the value its range allows for it ([v] itself within the range)
    when its listener runs. *)
Inductive SliderEvent :=
  | MinInput (v : Z)
  | MaxInput (v : Z).

Definition dispatch (s : Sliders) (ev : SliderEvent) : Sliders :=
  match ev with
  | MinInput v =>
      onMinInput (mkSliders (setValue v (minYearSlider s)) (maxYearSlider s)
                            (minYearDisplay s) (maxYearDisplay s))
  | MaxInput v =>
      onMaxInput (mkSliders (minYearSlider s) (setValue v (maxYearSlider s))
                            (minYearDisplay s) (maxYearDisplay s))
  end.

Definition runEvents (s : Sliders) (evs : list SliderEvent) : Sliders :=
  fold_left dispatch evs s.

(** The min-year slider is not above the max-year slider. *)
Definition slidersOrdered (s : Sliders) : bool :=
  range_value (minYearSlider s) <=? range_value (maxYearSlider s).

(** On the page [s0], the sliders are ordered after [initializeSliders]
    and any sequence of [input] events. *)
Definition slidersStayOrdered (s0 : Sliders) : Prop :=
  forall evs, slidersOrdered (runEvents (initializeSliders s0) evs) = true.

(** The ranges of the two sliders once [initializeSliders] has run: 2000
    to 2024 for the min-year slider, whose value is within it, and [lo] to
    [hi] for the max-year slider. *)
Definition sliderRanges (lo hi : Z) (s : Sliders) : Prop :=
  range_min (minYearSlider s) = 2000
  /\ range_max (minYearSlider s) = 2024
  /\ 2000 <= range_value (minYearSlider s) <= 2024
  /\ range_min (maxYearSlider s) = lo
  /\ range_max (maxYearSlider s) = hi.

(** Each label shows the value of its slider. *)
Definition labelsMirror (s : Sliders) : Prop :=
  minYearDisplay s = valueText (minYearSlider s)
  /\ maxYearDisplay s = valueText (maxYearSlider s).

(** A page whose min-year slider has the attributes of a range input left
    to its defaults (0 to 100, at 50) and whose max-year slider ranges
    from [lo] to [hi]; the labels are empty. *)
Definition pageSliders (lo hi : Z) : Sliders :=
  mkSliders (mkRangeInput 0 100 50) (mkRangeInput lo hi hi) [] [].

(** ** The Range Filter *)

Module RangeFilter.

(** Modelled from the spec: the Record of section 3, as the Range Filter
    receives it.  [applyFilters], which part_001 calls, is not among the
    sources; the definitions of this module follow sections 3 and 4.3. *)
Record SRecord := mkSRecord {
  Entity : jsstring;
  Year : Z;
  fields : list (jsstring * number)
}.

(** Modelled from the spec: a Dataset of section 3, with its main
    indicator, its valid Records and the currently filtered subset. *)
Record Dataset := mkDataset {
  mainIndicator : jsstring;
  ds_data : list SRecord;
  filteredData : list SRecord
}.

(** Modelled from the spec: what one invocation produces besides
    [filteredData], the per-entity average table and the per-year progress
    table of section 4.3. *)
Record Tables := mkTables {
  avgTable : list (jsstring * number);
  progressTable : list (Z * number)
}.

(** Modelled from the spec: the numeric field [name] of a Record, 0.0
    when absent. *)
Fixpoint fieldOf (name : jsstring) (fs : list (jsstring * number)) : number :=
  match fs with
  | [] => posZero
  | (k, x) :: r => if bool_decide (k = name) then x else fieldOf name r
  end.

(** Modelled from the spec: the arithmetic mean, in binary64. *)
Definition mean (xs : list number) : number :=
  SFdiv 53 1024 (fold_left (SFadd 53 1024) xs posZero)
        (number_of_Z (Z.of_nat (length xs))).

(** Modelled from the spec: "each distinct Entity appearing in
    filteredData", in the order of their first Record. *)
Fixpoint distinctEntities (l : list jsstring) : list jsstring :=
  match l with
  | [] => []
  | e :: r =>
      e :: List.filter (fun e' => negb (bool_decide (e' = e)))
             (distinctEntities r)
  end.

(** Modelled from the spec: "each distinct Year in range (ascending)";
    insertion in an ascending list without repetition. *)
Fixpoint insertYear (y : Z) (ys : list Z) : list Z :=
  match ys with
  | [] => [y]
  | z :: r =>
      if y <? z then y :: ys
      else if y =? z then ys
      else z :: insertYear y r
  end.

(** Modelled from the spec: the distinct years of the Records, ascending. *)
Definition distinctYears (l : list Z) : list Z :=
  fold_left (fun acc y => insertYear y acc) l [].

(** Modelled from the spec: the bounds, swapped when [minYear > maxYear]. *)
Definition orderedBounds (minYear maxYear : Z) : Z * Z :=
  if maxYear <? minYear then (maxYear, minYear) else (minYear, maxYear).

(** Modelled from the spec: "Year in range", both bounds included. *)
Definition inRange (lo hi : Z) (r : SRecord) : bool :=
  (lo <=? Year r) && (Year r <=? hi).

(** Modelled from the spec: (a) of section 4.3. *)
Definition filterByRange (data : list SRecord) (minYear maxYear : Z)
    : list SRecord :=
  let '(lo, hi) := orderedBounds minYear maxYear in
  List.filter (inRange lo hi) data.

(** Modelled from the spec: (b) of section 4.3. *)
Definition averageTable (indicator : jsstring) (recs : list SRecord)
    : list (jsstring * number) :=
  List.map
    (fun e =>
       (e, mean (List.map (fun r => fieldOf indicator (fields r))
                   (List.filter (fun r => bool_decide (Entity r = e)) recs))))
    (distinctEntities (List.map Entity recs)).

(** Modelled from the spec: (c) of section 4.3. *)
Definition yearTable (indicator : jsstring) (recs : list SRecord)
    : list (Z * number) :=
  List.map
    (fun y =>
       (y, mean (List.map (fun r => fieldOf indicator (fields r))
                   (List.filter (fun r => Year r =? y) recs))))
    (distinctYears (List.map Year recs)).

(** Modelled from the spec: one invocation of the Range Filter on a
    Dataset.  It replaces [filteredData] and returns the two tables. *)
Definition rangeFilter (ds : Dataset) (minYear maxYear : Z)
    : Dataset * Tables :=
  let filtered := filterByRange (ds_data ds) minYear maxYear in
  (mkDataset (mainIndicator ds) (ds_data ds) filtered,
   mkTables (averageTable (mainIndicator ds) filtered)
            (yearTable (mainIndicator ds) filtered)).

(** Modelled from the spec: the three Records of the worked example of
    section 8. *)
Definition dataA2001 : SRecord :=
  mkSRecord (str "A") 2001 [(str "coverage", number_of_Z 10)].

Definition dataA2002 : SRecord :=
  mkSRecord (str "A") 2002 [(str "coverage", number_of_Z 20)].

Definition dataB2001 : SRecord :=
  mkSRecord (str "B") 2001 [(str "coverage", number_of_Z 30)].

Definition exampleDataset : Dataset :=
  mkDataset (str "coverage") [dataA2001; dataA2002; dataB2001] [].

End RangeFilter.

(** ** Statements of the specification, as written, and the data of the
    examples *)

Section Statements.

Context {host : Host}.



(** The metadata request of a load fails with [e]: the fetch rejects or
    the body is not JSON. *)
Definition metadataFails (config : Config) (st : Store) (e : Error) : Prop :=
  match fetch (requests st) (metadataPath config) with
  | inl e' => e' = e
  | inr resp => resp_json resp = inl e
  end.

(** The metadata step of a load succeeds: the resource is fetched and
    parsed, the citation text is computed and its element exists. *)
Definition metadataLoads (datasetKey : jsstring) (config : Config)
    (st : Store) : Prop :=
  exists resp metadata citation,
    fetch (requests st) (metadataPath config) = inr resp
    /\ resp_json resp = inr metadata
    /\ citationText metadata datasetKey = inr citation
    /\ is_Some (elements st !! el_citation config).

(** The CSV request, sent after the requests [reqs], fails with [e]: the
    fetch rejects, the body cannot be read, or Papa Parse calls [error]. *)
Definition csvFails (config : Config) (reqs : list jsstring) (e : Error)
    : Prop :=
  match fetch reqs (csvPath config) with
  | inl e' => e' = e
  | inr resp =>
      match resp_text resp with
      | inl e' => e' = e
      | inr text => Papa_parse text = ParseError e
      end
  end.

(** The CSV of a load is unavailable or malformed as sections 4.2 and 7 of
    the specification mean it, for the request sent after [reqs]: the
    request rejects, the server answers with an HTTP error, the body
    cannot be read, or Papa Parse calls [error]. *)
Definition csvUnavailable (config : Config) (reqs : list jsstring) : Prop :=
  match fetch reqs (csvPath config) with
  | inl _ => True
  | inr resp =>
      resp_ok resp = false
      \/ match resp_text resp with
         | inl _ => True
         | inr text => exists e, Papa_parse text = ParseError e
         end
  end.

(** A CSV failure is fatal for its dataset only: after a metadata step
    that succeeded, the loader shows an error message and
    [datasetsConfig] is as before. *)
Definition csvFailureIsContained (datasetKey : jsstring) (st : Store)
    : Prop :=
  forall config,
    datasetsConfig st !! datasetKey = Some config ->
    metadataLoads datasetKey config st ->
    csvUnavailable config (requests st ++ [metadataPath config]) ->
    let st' := snd (loadDataset datasetKey st) in
    (exists el e,
       elements st' !! el_loader config = Some el
       /\ content el = Html (str "Erro: " ++ message e))
    /\ datasetsConfig st' = datasetsConfig st.

(** What the filter of the Loader requires of a record of [config]. *)
Definition validRecord (config : Config) (r : Record) : Prop :=
  r !! kEntity <> Some (VStr sentinel)
  /\ js_ge (yearNumber r) (minYear config) = true
  /\ js_le (yearNumber r) (maxYear config) = true.

(** A metadata failure does not stop the load: the CSV is requested,
    [data] is assigned and the citation is the default text. *)
Definition metadataFailureIsNotFatal (datasetKey : jsstring) (st : Store)
    : Prop :=
  forall config e,
    datasetsConfig st !! datasetKey = Some config ->
    metadataFails config st e ->
    let st' := snd (loadDataset datasetKey st) in
    In (csvPath config) (requests st')
    /\ (exists rows config',
          datasetsConfig st' !! datasetKey = Some config'
          /\ data config' = processRows config rows)
    /\ (exists el, elements st' !! el_citation config = Some el
          /\ content el = Text (defaultCitation datasetKey)).

End Statements.

Definition number_42_5 : number := binary_normalize 53 1024 85 (-1) false.

Definition exampleParseFloat (s : jsstring) : number :=
  if bool_decide (s = str "42.5") then number_42_5 else NaN.

Definition exampleConfig : Config :=
  mkConfig (str "mpa.metadata.json") (str "mpa.csv")
           [(str "Coverage", str "coverage")]
           (number_of_Z 2000) (number_of_Z 2024)
           (str "mpa-loader") (str "mpa-citation") [].

Definition mkRow (entity year coverage : string) : Row :=
  <[kEntity := str entity]> (<[kYear := str year]>
    (<[str "Coverage" := str coverage]> ∅)).

(** [{Entity: " Brazil ", Year: "2010", Coverage: "42.5"}] *)
Definition rowBrazil : Row := mkRow " Brazil " "2010" "42.5".
(** [{Entity: "   ", Year: "2010", Coverage: "42.5"}] *)
Definition rowBlankEntity : Row := mkRow "   " "2010" "42.5".

Definition exampleResponse : Response :=
  mkResponse
    (inr (JObj [(str "chart", JObj [(str "citation", JStr (str "OWID"))])]))
    (inr (str "Entity,Year,Coverage"))
    true.

(** A host whose metadata request or CSV request can be made to fail.
    Papa Parse returns the one row of [rowBrazil]; [initializeFilters]
    leaves the store as it is. *)
Definition exampleHost (metaFails csvFails : bool) : Host :=
  mkHost exampleParseFloat
         (fun _ => str "[object Object]")
         (fun p => mkError (str "Cannot access property " ++ p))
         (fun _ url =>
            if bool_decide (url = str "mpa.metadata.json")
            then (if metaFails then inl (mkError (str "Failed to fetch"))
                  else inr exampleResponse)
            else (if csvFails then inl (mkError (str "Failed to fetch"))
                  else inr exampleResponse))
         (fun _ => Complete [rowBrazil])
         (fun _ st => (inr tt, st)).

Definition exampleElement : Element := mkElement (Html []) [].

Definition exampleStore : Store :=
  mkStore {[ str "mpa" := exampleConfig ]}
          (<[str "mpa-loader" := exampleElement]>
             {[ str "mpa-citation" := exampleElement ]})
          {[ str "mpa" := true ]} [] [].

(** The answer of a server that does not have the resource: status 404
    and the body "Not Found", which is not JSON. *)
Definition notFoundResponse : Response :=
  mkResponse (inl (mkError (str "Unexpected token N")))
             (inr (str "Not Found"))
             false.

(** A host whose CSV resource is missing.  The metadata is served; the
    CSV request is answered with [notFoundResponse].  Papa Parse reads the
    one line of that body as a header and finds no row under it. *)
Definition notFoundHost : Host :=
  mkHost exampleParseFloat
         (fun _ => str "[object Object]")
         (fun p => mkError (str "Cannot access property " ++ p))
         (fun _ url =>
            if bool_decide (url = str "mpa.metadata.json")
            then inr exampleResponse
            else inr notFoundResponse)
         (fun text =>
            if bool_decide (text = str "Not Found") then Complete []
            else Complete [rowBrazil])
         (fun _ st => (inr tt, st)).

(** ** part_001: the configuration of a section and loadDatasetData *)

(** part_001, lines 20-33: the ids of the elements of one dataset. *)
Record Elements := mkElements {
  e_loader : jsstring;
  e_entities : jsstring;
  e_minYear : jsstring;
  e_maxYear : jsstring;
  e_minYearDisplay : jsstring;
  e_maxYearDisplay : jsstring;
  e_trendChart : jsstring;
  e_dataTable : jsstring;
  e_avgTable : jsstring;
  e_progressTable : jsstring;
  e_dataWarning : jsstring;
  e_citation : jsstring
}.

(** A chart instance; the sources only ever store [null] for it. *)
Inductive Chart := ChartInstance.

(** part_001, lines 14-34: the object stored at [datasetsConfig[datasetKey]]. *)
Record SectionConfig := mkSectionConfig {
  sc_data : list Record;
  sc_filteredData : list Record;
  sc_chart : option Chart;
  sc_mainIndicator : jsstring;
  sc_indicatorLabel : jsstring;
  sc_elements : Elements
}.

Definition sectionElements (datasetKey : jsstring) : Elements :=
  mkElements (datasetKey ++ str "-loader")
             (datasetKey ++ str "-entities")
             (datasetKey ++ str "-minYear")
             (datasetKey ++ str "-maxYear")
             (datasetKey ++ str "-minYearDisplay")
             (datasetKey ++ str "-maxYearDisplay")
             (datasetKey ++ str "-trendChart")
             (datasetKey ++ str "-dataTable")
             (datasetKey ++ str "-avgTable")
             (datasetKey ++ str "-progressTable")
             (datasetKey ++ str "-dataWarning")
             (datasetKey ++ str "-citation").

Definition sectionConfig (datasetKey : jsstring) : SectionConfig :=
  mkSectionConfig [] [] None (str "Valor") (str "Valor")
                  (sectionElements datasetKey).

(** The twelve properties of [elements], to speak of any one of them. *)
Inductive ElementRole :=
  | RLoader | REntities | RMinYear | RMaxYear | RMinYearDisplay
  | RMaxYearDisplay | RTrendChart | RDataTable | RAvgTable | RProgressTable
  | RDataWarning | RCitation.

Definition elementAt (r : ElementRole) (e : Elements) : jsstring :=
  match r with
  | RLoader => e_loader e
  | REntities => e_entities e
  | RMinYear => e_minYear e
  | RMaxYear => e_maxYear e
  | RMinYearDisplay => e_minYearDisplay e
  | RMaxYearDisplay => e_maxYearDisplay e
  | RTrendChart => e_trendChart e
  | RDataTable => e_dataTable e
  | RAvgTable => e_avgTable e
  | RProgressTable => e_progressTable e
  | RDataWarning => e_dataWarning e
  | RCitation => e_citation e
  end.

(** [console.error] of part_001, line 96. *)
Inductive PageLog :=
  | PageError (datasetKey : jsstring) (e : Error).

(** The page as [loadDatasetData] reads and writes it.  Elements are nodes;
    [pg_byId] is [document.getElementById], [pg_description] is
    [document.querySelector('.dataset-description')], the first element of
    that class, which may also be reachable by an id. *)
Record Page := mkPage {
  pg_configs : gmap jsstring SectionConfig;
  pg_nodes : gmap nat Element;
  pg_byId : gmap jsstring nat;
  pg_description : option nat;
  pg_console : list PageLog;
  pg_requests : list jsstring
}.

Definition API_BASE : jsstring := str "/api".

(** [`${API_BASE}/metadata/${datasetKey}`] *)
Definition metadataUrl (datasetKey : jsstring) : jsstring :=
  API_BASE ++ str "/metadata/" ++ datasetKey.

(** [`Descrição para ${datasetKey}`]; the two letters outside ASCII are the
    code units U+00E7 and U+00E3. *)
Definition defaultDescription (datasetKey : jsstring) : jsstring :=
  str "Descri" ++ [231; 227]%N ++ str "o para " ++ datasetKey.

(** ['Fonte não disponível'], with U+00E3 and U+00ED. *)
Definition citationUnavailable : jsstring :=
  str "Fonte n" ++ [227]%N ++ str "o dispon" ++ [237]%N ++ str "vel".

(** [node.innerHTML = s] or [node.textContent = s] on an element at hand. *)
Definition writeNode (n : nat) (c : Content) (pg : Page) : Page :=
  mkPage (pg_configs pg) (alter (setContent c) n (pg_nodes pg)) (pg_byId pg)
         (pg_description pg) (pg_console pg) (pg_requests pg).

Section PageLoader.

Context {host : Host}.

(** [metadata.chart?.name] *)
Definition chartProperty (metadata : json) (name : jsstring)
    : Error + option json :=
  match metadata with
  | JNull => inl (typeError (str "chart"))
  | _ =>
      match jsonGet metadata (str "chart") with
      | None | Some JNull => inr None
      | Some chart => inr (jsonGet chart name)
      end
  end.

(** [c || d], as the text an element receives. *)
Definition textOr (c : option json) (d : jsstring) : jsstring :=
  if jsonTruthy c then
    match c with
    | Some (JStr s) => s
    | Some v => jsonToString v
    | None => d
    end
  else d.

(** part_001, line 92: the assignment to the description.  The right-hand
    side is evaluated before the element is written. *)
Definition writeDescription (datasetKey : jsstring) (metadata : json)
    (pg : Page) : (Error + unit) * Page :=
  match chartProperty metadata (str "subtitle") with
  | inl e => (inl e, pg)
  | inr c =>
      match pg_description pg with
      | None => (inl (typeError (str "textContent")), pg)
      | Some n =>
          (inr tt,
           writeNode n (Text (textOr c (defaultDescription datasetKey))) pg)
      end
  end.

(** part_001, line 93: the assignment to the citation. *)
Definition writeCitation (config : SectionConfig) (metadata : json)
    (pg : Page) : (Error + unit) * Page :=
  match chartProperty metadata (str "citation") with
  | inl e => (inl e, pg)
  | inr c =>
      match pg_byId pg !! e_citation (sc_elements config) with
      | None => (inl (typeError (str "textContent")), pg)
      | Some n => (inr tt, writeNode n (Text (textOr c citationUnavailable)) pg)
      end
  end.

(** part_001, lines 89-93: the [try] block. *)
Definition pageTryBlock (datasetKey : jsstring) (config : SectionConfig)
    (pg : Page) : (Error + unit) * Page :=
  let url := metadataUrl datasetKey in
  let pg1 := mkPage (pg_configs pg) (pg_nodes pg) (pg_byId pg)
                    (pg_description pg) (pg_console pg)
                    (pg_requests pg ++ [url]) in
  match fetch (pg_requests pg) url with
  | inl e => (inl e, pg1)
  | inr metadataRes =>
      match resp_json metadataRes with
      | inl e => (inl e, pg1)
      | inr metadata =>
          match writeDescription datasetKey metadata pg1 with
          | (inl e, pg2) => (inl e, pg2)
          | (inr _, pg2) => writeCitation config metadata pg2
          end
      end
  end.

(** part_001, lines 94-97: the [catch] block; [loader] is the element found
    at line 83. *)
Definition pageCatchBlock (datasetKey : jsstring) (loader : nat)
    (error : Error) (pg : Page) : Page :=
  let pg1 :=
    writeNode loader
      (Html (str "Erro ao carregar " ++ datasetKey ++ str ": " ++ message error))
      pg in
  mkPage (pg_configs pg1) (pg_nodes pg1) (pg_byId pg1) (pg_description pg1)
         (pg_console pg1 ++ [PageError datasetKey error]) (pg_requests pg1).

(** part_001, lines 81-98.  The outcome is read as for [loadDataset].  The
    query of line 84 finds the apply button; its result is not used, and
    its selector is taken to parse, as for line 4 of [loadDataset]. *)
Definition loadDatasetData (datasetKey : jsstring) (pg : Page)
    : LoadOutcome * Page :=
  match pg_configs pg !! datasetKey with
  | None => (Rejected (typeError (str "elements")), pg)
  | Some config =>
      match pg_byId pg !! e_loader (sc_elements config) with
      | None => (Rejected (typeError (str "innerHTML")), pg)
      | Some loader =>
          let pg1 :=
            writeNode loader
              (Html (str "Carregando " ++ datasetKey ++ str "...")) pg in
          match pageTryBlock datasetKey config pg1 with
          | (inr _, pg2) => (Loaded, pg2)
          | (inl e, pg2) => (Failed e, pageCatchBlock datasetKey loader e pg2)
          end
      end
  end.

End PageLoader.

(** The content of a node of the page. *)
Definition nodeContent (pg : Page) (n : nat) : option Content :=
  content <$> pg_nodes pg !! n.

(** ** Data of the examples of part_001 *)

Definition examplePage (withCitation : bool) : Page :=
  mkPage {[ str "mpa" := sectionConfig (str "mpa") ]}
         (<[0%nat := exampleElement]>
            (<[1%nat := exampleElement]> {[ 2%nat := exampleElement ]}))
         (if withCitation
          then <[str "mpa-loader" := 0%nat]> {[ str "mpa-citation" := 2%nat ]}
          else {[ str "mpa-loader" := 0%nat ]})
         (Some 1%nat) [] [].

(** A host that answers the metadata request of "mpa" with a chart that has
    a subtitle and no citation, or fails it. *)
Definition pageHost (metaFails : bool) : Host :=
  mkHost exampleParseFloat
         (fun _ => str "[object Object]")
         (fun p => mkError (str "Cannot access property " ++ p))
         (fun _ url =>
            if metaFails then inl (mkError (str "Failed to fetch"))
            else inr (mkResponse
                        (inr (JObj [(str "chart",
                                     JObj [(str "subtitle", JStr (str "MPA"))])]))
                        (inr []) true))
         (fun _ => Complete [])
         (fun _ st => (inr tt, st)).

(** A text with no white space at either end (the empty text included). *)
Definition noOuterSpace (s : jsstring) : bool :=
  negb (isWhiteSpace (hd 0%N s)) && negb (isWhiteSpace (List.last s 0%N)).

(** [{Entity: " Desconhecido ", Year: "2010", Coverage: "42.5"}] *)
Definition rowSentinelName : Row := mkRow " Desconhecido " "2010" "42.5".

(** A configuration whose year bounds are missing. *)
Definition configNoBounds : Config :=
  mkConfig (str "mpa.metadata.json") (str "mpa.csv")
           [(str "Coverage", str "coverage")] NaN NaN
           (str "mpa-loader") (str "mpa-citation") [].

(** * Properties *)

(** ** Numbers *)

Lemma SFltb_irrefl (x : number) : SFltb x x = false.
Proof.
  unfold SFltb.
  destruct x as [s | s | | s m e]; simpl; try reflexivity.
  - destruct s; reflexivity.
  - rewrite Z.compare_refl, Pos.compare_cont_refl. destruct s; reflexivity.
Qed.

Lemma js_le_refl (x : number) : isNaN x = false -> js_le x x = true.
Proof.
  intros Hx. unfold js_le. rewrite Hx, SFltb_irrefl. reflexivity.
Qed.

Lemma js_le_not_NaN (a b : number) :
  js_le a b = true -> isNaN a = false /\ isNaN b = false.
Proof.
  unfold js_le. intros H.
  apply andb_true_iff in H as [H _].
  apply andb_true_iff in H as [Ha Hb].
  split; [destruct (isNaN a) | destruct (isNaN b)]; done.
Qed.

Lemma orNumber_truthy (a d : number) : truthy a = true -> orNumber a d = a.
Proof. intros H. unfold orNumber. by rewrite H. Qed.

(** *** The rounding of an integer never yields zero or NaN *)

Lemma iter_pos_nat {A} (f : A -> A) (p : positive) (x : A) :
  SpecFloat.iter_pos f p x = Nat.iter (Pos.to_nat p) f x.
Proof.
  revert x. induction p as [p IH | p IH |]; intros x.
  - rewrite Pos2Nat.inj_xI. cbn [SpecFloat.iter_pos]. rewrite !IH.
    replace (S (2 * Pos.to_nat p))%nat
      with (Pos.to_nat p + (Pos.to_nat p + 1))%nat by lia.
    rewrite !Nat.iter_add. reflexivity.
  - rewrite Pos2Nat.inj_xO. cbn [SpecFloat.iter_pos]. rewrite !IH.
    replace (2 * Pos.to_nat p)%nat
      with (Pos.to_nat p + Pos.to_nat p)%nat by lia.
    rewrite Nat.iter_add. reflexivity.
  - reflexivity.
Qed.

Lemma pos_succ_Z (p : positive) : Z.pos (PosDef.Pos.succ p) = Z.pos p + 1.
Proof. exact (Pos2Z.inj_succ p). Qed.

Lemma shr_1_digits (mrs : shr_record) :
  0 < shr_m mrs -> Zdigits2 (shr_m (shr_1 mrs)) = Zdigits2 (shr_m mrs) - 1.
Proof.
  destruct mrs as [m r s]. simpl. intros Hm.
  destruct m as [| p | p]; try lia.
  destruct p; cbn [shr_m Zdigits2 digits2_pos]; rewrite ?pos_succ_Z; lia.
Qed.

Lemma Zdigits2_pos (m : Z) : 0 < m -> 0 < Zdigits2 m.
Proof. destruct m; simpl; lia. Qed.

Lemma Zdigits2_pos_inv (m : Z) : 0 <= m -> 0 < Zdigits2 m -> 0 < m.
Proof. destruct m; simpl; lia. Qed.

Lemma shr_1_nonneg (mrs : shr_record) :
  0 <= shr_m mrs -> 0 <= shr_m (shr_1 mrs).
Proof.
  destruct mrs as [m r s]. simpl. intros Hm.
  destruct m as [| p | p]; [simpl; lia | destruct p; simpl; lia | lia].
Qed.

Lemma iter_shr_1_digits (n : nat) (mrs : shr_record) :
  0 < shr_m mrs ->
  Z.of_nat n < Zdigits2 (shr_m mrs) ->
  0 < shr_m (Nat.iter n shr_1 mrs) /\
  Zdigits2 (shr_m (Nat.iter n shr_1 mrs)) = Zdigits2 (shr_m mrs) - Z.of_nat n.
Proof.
  intros Hm. induction n as [| n IH]; intros Hn; simpl.
  - split; [done | lia].
  - destruct IH as [Hp He]; [lia |].
    assert (Hd : Zdigits2 (shr_m (shr_1 (Nat.iter n shr_1 mrs)))
                 = Zdigits2 (shr_m mrs) - Z.of_nat (S n)).
    { rewrite shr_1_digits by done. lia. }
    split; [| exact Hd].
    apply Zdigits2_pos_inv; [apply shr_1_nonneg; lia | lia].
Qed.

Lemma shr_record_of_loc_m (m : Z) (l : location) :
  shr_m (shr_record_of_loc m l) = m.
Proof. destruct l as [| []]; reflexivity. Qed.

Lemma shr_fexp_pos (m e : Z) (l : location) :
  0 < m -> emin 53 1024 <= e ->
  0 < shr_m (fst (shr_fexp 53 1024 m e l)) /\
  emin 53 1024 <= snd (shr_fexp 53 1024 m e l).
Proof.
  intros Hm He. unfold shr_fexp, shr.
  destruct (fexp 53 1024 (Zdigits2 m + e) - e) as [| p | p] eqn:Hn; simpl.
  - rewrite shr_record_of_loc_m. done.
  - rewrite iter_pos_nat. split; [| lia].
    apply iter_shr_1_digits; rewrite shr_record_of_loc_m; [done |].
    rewrite positive_nat_Z.
    unfold fexp in Hn.
    assert (0 < Zdigits2 m) by (by apply Zdigits2_pos).
    unfold emin in *. lia.
  - rewrite shr_record_of_loc_m. done.
Qed.

Lemma round_nearest_even_pos (m : Z) (l : location) :
  0 < m -> 0 < round_nearest_even m l.
Proof.
  intros Hm. destruct l as [| []]; simpl; try lia.
  destruct (Z.even m); lia.
Qed.

Lemma binary_round_aux_truthy (sx : bool) (m e : Z) (l : location) :
  0 < m -> emin 53 1024 <= e ->
  truthy (binary_round_aux 53 1024 sx m e l) = true.
Proof.
  intros Hm He. unfold binary_round_aux.
  pose proof (shr_fexp_pos m e l Hm He) as [H1 H2].
  destruct (shr_fexp 53 1024 m e l) as [mrs' e']. simpl in H1, H2.
  pose proof (shr_fexp_pos _ e' loc_Exact
                (round_nearest_even_pos _ (loc_of_shr_record mrs') H1) H2) as [H3 _].
  destruct (shr_fexp 53 1024 _ e' loc_Exact) as [mrs'' e'']. simpl in H3.
  destruct (shr_m mrs''); try lia.
  destruct (e'' <=? 1024 - 53); reflexivity.
Qed.

Lemma binary_round_truthy (sx : bool) (m : positive) :
  truthy (binary_round 53 1024 sx m 0) = true.
Proof.
  unfold binary_round.
  destruct (shl_align m 0 _) as [mz ez] eqn:Hs.
  apply binary_round_aux_truthy; [lia |].
  unfold shl_align in Hs.
  destruct (fexp 53 1024 (Z.pos (digits2_pos m) + 0) - 0) eqn:Hd;
    inversion Hs; subst; unfold fexp, emin in *; lia.
Qed.

(** The Number of a non-zero integer is truthy: neither a zero nor NaN. *)
Lemma number_of_Z_truthy (z : Z) : z <> 0 -> truthy (number_of_Z z) = true.
Proof.
  intros Hz. unfold number_of_Z, binary_normalize.
  destruct z; [done | apply binary_round_truthy | apply binary_round_truthy].
Qed.

Lemma orNumber_number_of_Z (z : Z) :
  orNumber (number_of_Z z) posZero = number_of_Z z.
Proof.
  destruct (decide (z = 0)) as [-> | Hz]; [reflexivity |].
  apply orNumber_truthy, number_of_Z_truthy, Hz.
Qed.

(** *** Integers below 2^53 are exact *)

Lemma pow2_step (d : Z) : 0 < d -> 2 ^ d = 2 * 2 ^ (d - 1).
Proof.
  intros Hd. replace d with (Z.succ (d - 1)) at 1 by lia.
  apply Z.pow_succ_r. lia.
Qed.

Lemma digits2_pos_bounds (p : positive) :
  2 ^ (Z.pos (digits2_pos p) - 1) <= Z.pos p < 2 ^ Z.pos (digits2_pos p).
Proof.
  induction p as [p IH | p IH |]; cbn [digits2_pos]; rewrite ?pos_succ_Z.
  - replace (Z.pos (digits2_pos p) + 1 - 1) with (Z.pos (digits2_pos p)) by lia.
    rewrite (pow2_step (Z.pos (digits2_pos p) + 1)) by lia.
    replace (Z.pos (digits2_pos p) + 1 - 1) with (Z.pos (digits2_pos p)) by lia.
    pose proof (pow2_step (Z.pos (digits2_pos p)) ltac:(lia)). lia.
  - replace (Z.pos (digits2_pos p) + 1 - 1) with (Z.pos (digits2_pos p)) by lia.
    rewrite (pow2_step (Z.pos (digits2_pos p) + 1)) by lia.
    replace (Z.pos (digits2_pos p) + 1 - 1) with (Z.pos (digits2_pos p)) by lia.
    pose proof (pow2_step (Z.pos (digits2_pos p)) ltac:(lia)). lia.
  - simpl. lia.
Qed.

Lemma iter_xO_Z (p k : positive) :
  Z.pos (Pos.iter xO p k) = Z.pos p * 2 ^ Z.pos k.
Proof.
  induction k as [| k IH] using Pos.peano_ind.
  - simpl. lia.
  - rewrite Pos.iter_succ, Pos2Z.inj_xO, IH, Pos2Z.inj_succ.
    rewrite Z.pow_succ_r by lia. lia.
Qed.

Lemma iter_xO_digits (p k : positive) :
  Z.pos (digits2_pos (Pos.iter xO p k)) = Z.pos (digits2_pos p) + Z.pos k.
Proof.
  induction k as [| k IH] using Pos.peano_ind.
  - cbn [Pos.iter digits2_pos]. rewrite pos_succ_Z. lia.
  - rewrite Pos.iter_succ. cbn [digits2_pos]. rewrite pos_succ_Z, IH. lia.
Qed.

Lemma shr_fexp_exact (mz : positive) (ez : Z) :
  Z.pos (digits2_pos mz) = 53 -> -1074 <= ez ->
  shr_fexp 53 1024 (Z.pos mz) ez loc_Exact
  = (Build_shr_record (Z.pos mz) false false, ez).
Proof.
  intros Hd He. unfold shr_fexp. cbn [Zdigits2]. rewrite Hd.
  unfold fexp, emin. rewrite Z.max_l by lia.
  replace (53 + ez - 53 - ez) with 0 by lia. reflexivity.
Qed.

Lemma binary_round_aux_exact (s : bool) (mz : positive) (ez : Z) :
  Z.pos (digits2_pos mz) = 53 -> -1074 <= ez <= 971 ->
  binary_round_aux 53 1024 s (Z.pos mz) ez loc_Exact = S754_finite s mz ez.
Proof.
  intros Hd He. unfold binary_round_aux.
  rewrite shr_fexp_exact by (done || lia).
  cbn [shr_m loc_of_shr_record round_nearest_even].
  rewrite shr_fexp_exact by (done || lia). cbn [shr_m].
  destruct (ez <=? 1024 - 53) eqn:E; [reflexivity |].
  apply Z.leb_gt in E. lia.
Qed.

Lemma digits2_pos_le_53 (p : positive) :
  Z.pos p < 2 ^ 53 -> Z.pos (digits2_pos p) <= 53.
Proof.
  intros Hp. pose proof (digits2_pos_bounds p) as [Hlo _].
  destruct (Z_le_gt_dec (Z.pos (digits2_pos p)) 53) as [H | H]; [exact H |].
  assert (2 ^ 53 <= 2 ^ (Z.pos (digits2_pos p) - 1))
    by (apply Z.pow_le_mono_r; lia).
  lia.
Qed.

(** An integer below 2^53 is a Number as it is: its mantissa is the integer,
    shifted to 53 bits. *)
Lemma binary_round_small (s : bool) (p : positive) :
  Z.pos p < 2 ^ 53 ->
  exists m,
    binary_round 53 1024 s p 0
      = S754_finite s m (Z.pos (digits2_pos p) - 53)
    /\ Z.pos m = Z.pos p * 2 ^ (53 - Z.pos (digits2_pos p)).
Proof.
  intros Hp. pose proof (digits2_pos_le_53 p Hp) as Hd.
  unfold binary_round. unfold fexp at 1, emin.
  rewrite Z.max_l by lia. unfold shl_align.
  destruct (Z.pos (digits2_pos p) + 0 - 53 - 0) as [| k | k] eqn:Hk; try lia.
  - exists p. split.
    + rewrite binary_round_aux_exact by lia. f_equal; lia.
    + replace (53 - Z.pos (digits2_pos p)) with 0 by lia. lia.
  - exists (Pos.iter xO p k). split.
    + rewrite binary_round_aux_exact.
      * f_equal; lia.
      * rewrite iter_xO_digits. lia.
      * lia.
    + rewrite iter_xO_Z. do 2 f_equal; lia.
Qed.

(** On integers from 0 to 2^53, the order of the Numbers is the order of
    the integers. *)
Lemma SFltb_number_of_Z (a b : Z) :
  0 <= a < 2 ^ 53 -> 0 <= b < 2 ^ 53 ->
  SFltb (number_of_Z a) (number_of_Z b) = (a <? b).
Proof.
  intros Ha Hb. unfold number_of_Z, binary_normalize.
  destruct a as [| p | p]; destruct b as [| q | q]; try lia.
  - reflexivity.
  - destruct (binary_round_small false q) as (m & -> & _); [lia |]. reflexivity.
  - destruct (binary_round_small false p) as (m & -> & _); [lia |]. reflexivity.
  - destruct (binary_round_small false p) as (mp & -> & Hmp); [lia |].
    destruct (binary_round_small false q) as (mq & -> & Hmq); [lia |].
    pose proof (digits2_pos_bounds p) as [Hp1 Hp2].
    pose proof (digits2_pos_bounds q) as [Hq1 Hq2].
    unfold SFltb, SFcompare.
    destruct (Z.compare_spec (Z.pos (digits2_pos p) - 53)
                             (Z.pos (digits2_pos q) - 53)) as [He | He | He].
    + assert (Hd : Z.pos (digits2_pos p) = Z.pos (digits2_pos q)) by lia.
      rewrite Hd in Hmp.
      assert (Hpow : 0 < 2 ^ (53 - Z.pos (digits2_pos q)))
        by (apply Z.pow_pos_nonneg; pose proof (digits2_pos_le_53 q); lia).
      change (Pos.compare_cont Eq mp mq) with (Pos.compare mp mq).
      destruct (Pos.compare_spec mp mq) as [Hc | Hc | Hc];
        symmetry; [apply Z.ltb_ge | apply Z.ltb_lt | apply Z.ltb_ge]; nia.
    + symmetry. apply Z.ltb_lt.
      assert (2 ^ Z.pos (digits2_pos p) <= 2 ^ (Z.pos (digits2_pos q) - 1))
        by (apply Z.pow_le_mono_r; lia).
      lia.
    + symmetry. apply Z.ltb_ge.
      assert (2 ^ Z.pos (digits2_pos q) <= 2 ^ (Z.pos (digits2_pos p) - 1))
        by (apply Z.pow_le_mono_r; lia).
      lia.
Qed.

(** ** Strings and parseInt *)

Lemma trimStart_app (ws t : jsstring) :
  forallb isWhiteSpace ws = true ->
  match t with [] => True | c :: _ => isWhiteSpace c = false end ->
  trimStart (ws ++ t) = t.
Proof.
  intros Hws Ht. induction ws as [| w ws IH]; simpl in *.
  - destruct t as [| c r]; [reflexivity |]. simpl. by rewrite Ht.
  - apply andb_true_iff in Hws as [Hw Hws]. rewrite Hw. by apply IH.
Qed.

Lemma trimStart_all_ws (ws : jsstring) :
  forallb isWhiteSpace ws = true -> trimStart ws = [].
Proof.
  intros H. rewrite <- (app_nil_r ws). by apply trimStart_app.
Qed.

Lemma trim_all_ws (ws : jsstring) :
  forallb isWhiteSpace ws = true -> trim ws = [].
Proof.
  intros H. unfold trim, trimEnd. by rewrite (trimStart_all_ws ws H).
Qed.

Lemma isDecimalDigit_range (c : N) :
  isDecimalDigit c = true -> (48 <= c <= 57)%N.
Proof.
  unfold isDecimalDigit. intros H.
  apply andb_true_iff in H as [H1%N.leb_le H2%N.leb_le]. lia.
Qed.

Lemma digit_not_ws (c : N) : isDecimalDigit c = true -> isWhiteSpace c = false.
Proof.
  intros H%isDecimalDigit_range. unfold isWhiteSpace. simpl.
  repeat (apply orb_false_iff; split);
    try reflexivity; try (apply N.eqb_neq; lia).
  apply andb_false_iff. left. apply N.leb_gt. lia.
Qed.

Lemma radixDigit_decimal (c : N) :
  isDecimalDigit c = true -> radixDigit 10 c = Some (Z.of_N (c - 48)).
Proof.
  intros H. pose proof (isDecimalDigit_range c H) as Hr.
  unfold radixDigit, digitValue. unfold isDecimalDigit in H. rewrite H.
  destruct (Z.of_N (c - 48) <? 10) eqn:E; [reflexivity |].
  apply Z.ltb_ge in E. lia.
Qed.

Lemma radixDigit_not_decimal (c : N) :
  isDecimalDigit c = false -> radixDigit 10 c = None.
Proof.
  intros H. unfold radixDigit, digitValue. unfold isDecimalDigit in H.
  rewrite H.
  destruct ((97 <=? c)%N && (c <=? 122)%N) eqn:E1.
  - apply andb_true_iff in E1 as [L1%N.leb_le L2%N.leb_le].
    destruct (Z.of_N (c - 87) <? 10) eqn:E; [| reflexivity].
    apply Z.ltb_lt in E. lia.
  - destruct ((65 <=? c)%N && (c <=? 90)%N) eqn:E2; [| reflexivity].
    apply andb_true_iff in E2 as [L1%N.leb_le L2%N.leb_le].
    destruct (Z.of_N (c - 55) <? 10) eqn:E; [| reflexivity].
    apply Z.ltb_lt in E. lia.
Qed.

Lemma digitsPrefix_decimal (ds rest : jsstring) :
  forallb isDecimalDigit ds = true ->
  startsWithDigit rest = false ->
  digitsPrefix 10 (ds ++ rest) = List.map (fun c => Z.of_N (c - 48)) ds.
Proof.
  intros Hds Hrest. induction ds as [| d ds IH]; simpl in *.
  - destruct rest as [| c r]; [reflexivity |]. simpl in *.
    by rewrite radixDigit_not_decimal.
  - apply andb_true_iff in Hds as [Hd Hds].
    rewrite radixDigit_decimal by done. f_equal. by apply IH.
Qed.

Lemma mathInt_decimal (ds : jsstring) :
  mathInt 10 (List.map (fun c => Z.of_N (c - 48)) ds) = decimalValue ds.
Proof.
  unfold mathInt, decimalValue. generalize 0.
  induction ds as [| d ds IH]; intros acc; simpl; [reflexivity |].
  rewrite IH. f_equal. lia.
Qed.

Lemma readSign_signText (sg : Sign) (t : jsstring) :
  startsWithDigit t = true ->
  readSign (signText sg ++ t) = (signValue sg, t).
Proof.
  intros Ht. destruct sg; simpl; try reflexivity.
  destruct t as [| c r]; [done |]. simpl in Ht.
  apply isDecimalDigit_range in Ht. unfold readSign.
  destruct (c =? ch "-")%N eqn:E1;
    [apply N.eqb_eq in E1; vm_compute in E1; lia |].
  destruct (c =? ch "+")%N eqn:E2;
    [apply N.eqb_eq in E2; vm_compute in E2; lia |].
  reflexivity.
Qed.

Lemma readRadix_not_hex (s : jsstring) :
  startsHex s = false -> readRadix s = (10, s).
Proof.
  intros H. unfold readRadix, startsHex in *.
  destruct s as [| c0 [| c1 r]]; try reflexivity. by rewrite H.
Qed.

(** What [parseInt] returns on white space, a sign, decimal digits and a
    rest, when the digits do not open a hexadecimal literal. *)
Lemma parseInt_decimal (ws : jsstring) (sg : Sign) (ds rest : jsstring) :
  forallb isWhiteSpace ws = true ->
  ds <> [] ->
  forallb isDecimalDigit ds = true ->
  startsWithDigit rest = false ->
  startsHex (ds ++ rest) = false ->
  parseInt (Some (ws ++ signText sg ++ ds ++ rest)) =
    if decimalValue ds =? 0
    then (if signValue sg =? -1 then negZero else posZero)
    else number_of_Z (signValue sg * decimalValue ds).
Proof.
  intros Hws Hne Hds Hrest Hhex.
  assert (Hd : startsWithDigit (ds ++ rest) = true).
  { destruct ds as [| d ds']; [done |]. simpl in *.
    by apply andb_true_iff in Hds as [? _]. }
  unfold parseInt, ToString.
  rewrite trimStart_app; [| done |].
  - rewrite readSign_signText by done.
    rewrite readRadix_not_hex by done.
    rewrite digitsPrefix_decimal by done.
    destruct ds as [| d ds']; [done |].
    cbn [List.map]. rewrite <- mathInt_decimal. reflexivity.
  - destruct sg; simpl; try reflexivity.
    destruct ds as [| d ds']; [done |]. simpl in *.
    apply digit_not_ws. by apply andb_true_iff in Hds as [? _].
Qed.


(** ** The Row Normalizer *)

Section NormalizerFacts.

Context {host : Host}.

Lemma fold_insert_notin (l : list (jsstring * value)) (m : Record)
    (k : jsstring) :
  ~ In k (List.map fst l) ->
  fold_left (fun m kv => <[fst kv := snd kv]> m) l m !! k = m !! k.
Proof.
  revert m. induction l as [| [k' v'] l IH]; intros m Hk; simpl in *.
  - reflexivity.
  - rewrite IH by tauto. apply lookup_insert_ne. tauto.
Qed.

Lemma fold_insert_in (l : list (jsstring * value)) (m : Record)
    (k : jsstring) (v : value) :
  List.NoDup (List.map fst l) -> In (k, v) l ->
  fold_left (fun m kv => <[fst kv := snd kv]> m) l m !! k = Some v.
Proof.
  revert m. induction l as [| [k' v'] l IH]; intros m Hnd Hin; simpl in *.
  - done.
  - apply List.NoDup_cons_iff in Hnd as [Hk' Hnd].
    destruct Hin as [Heq | Hin].
    + inversion Heq; subst. rewrite fold_insert_notin by done.
      apply lookup_insert_eq.
    + by apply IH.
Qed.

Lemma columnEntry_keys (row : Row) (cm : list (jsstring * jsstring)) :
  List.map fst (List.map (columnEntry row) cm) = List.map snd cm.
Proof.
  induction cm as [| [o n] cm IH]; simpl; [reflexivity |]. by rewrite IH.
Qed.

Lemma normalizeRow_other (config : Config) (row : Row) (k : jsstring) :
  ~ In k (List.map snd (columnMap config)) ->
  normalizeRow config row !! k =
    (<[kEntity := VStr (trim (orString (row !! kEntity) sentinel))]>
       (<[kYear := VNum (orNumber (parseInt (row !! kYear)) posZero)]> ∅)
     : Record) !! k.
Proof.
  intros Hk. unfold normalizeRow. apply lookup_union_r.
  unfold fromEntries. rewrite fold_insert_notin; [apply lookup_empty |].
  by rewrite columnEntry_keys.
Qed.

Lemma normalizeRow_Entity (config : Config) (row : Row) :
  ~ In kEntity (List.map snd (columnMap config)) ->
  normalizeRow config row !! kEntity
    = Some (VStr (trim (orString (row !! kEntity) sentinel))).
Proof.
  intros Hk. rewrite normalizeRow_other by done. apply lookup_insert_eq.
Qed.

Lemma normalizeRow_Year (config : Config) (row : Row) :
  ~ In kYear (List.map snd (columnMap config)) ->
  yearNumber (normalizeRow config row)
    = orNumber (parseInt (row !! kYear)) posZero.
Proof.
  intros Hk. unfold yearNumber. rewrite normalizeRow_other by done.
  rewrite lookup_insert_ne by done. by rewrite lookup_insert_eq.
Qed.

Lemma normalizeRow_column (config : Config) (row : Row)
    (original newName : jsstring) :
  List.NoDup (List.map snd (columnMap config)) ->
  In (original, newName) (columnMap config) ->
  normalizeRow config row !! newName
    = Some (VNum (orNumber (parseFloat (ToString (row !! original))) posZero)).
Proof.
  intros Hnd Hin. unfold normalizeRow. apply lookup_union_Some_l.
  unfold fromEntries. apply fold_insert_in.
  - by rewrite columnEntry_keys.
  - apply in_map_iff. by exists (original, newName).
Qed.

Lemma fold_insert_numbers (l : list (jsstring * value)) (m : Record) :
  (forall kv, In kv l -> exists n, snd kv = VNum n) ->
  (forall k v, m !! k = Some v -> exists n, v = VNum n) ->
  forall k v,
    fold_left (fun m kv => <[fst kv := snd kv]> m) l m !! k = Some v ->
    exists n, v = VNum n.
Proof.
  revert m. induction l as [| [k' v'] l IH]; intros m Hl Hm k v; simpl.
  - apply Hm.
  - apply IH.
    + intros kv Hin. apply Hl. by right.
    + intros k0 v0. rewrite lookup_insert. case_decide.
      * intros [= <-]. apply (Hl (k', v')). by left.
      * apply Hm.
Qed.

(** Whatever the column mapping, [Year] holds a Number in a normalised
    record. *)
Lemma normalizeRow_Year_is_number (config : Config) (row : Row) :
  exists n, normalizeRow config row !! kYear = Some (VNum n).
Proof.
  unfold normalizeRow.
  destruct (fromEntries (List.map (columnEntry row) (columnMap config))
              !! kYear) as [v |] eqn:E.
  - assert (Hn : exists n, v = VNum n).
    { unfold fromEntries in E. revert E. apply fold_insert_numbers.
      - intros kv Hin. apply in_map_iff in Hin as [[o n] [<- _]].
        by eexists.
      - intros k0 v0. by rewrite lookup_empty. }
    destruct Hn as [n ->]. exists n. by apply lookup_union_Some_l.
  - eexists. rewrite lookup_union_r by done.
    rewrite lookup_insert_ne by done. apply lookup_insert_eq.
Qed.

(** An Entity of white space only is trimmed to the empty text, which is
    not the sentinel. *)
Lemma blank_entity_becomes_empty (config : Config) (row : Row)
    (ws : jsstring) :
  ~ In kEntity (List.map snd (columnMap config)) ->
  ws <> [] -> forallb isWhiteSpace ws = true ->
  row !! kEntity = Some ws ->
  normalizeRow config row !! kEntity = Some (VStr [])
  /\ entityNotSentinel (normalizeRow config row) = true.
Proof.
  intros Hk Hne Hws Hrow.
  assert (HE : normalizeRow config row !! kEntity = Some (VStr [])).
  { rewrite normalizeRow_Entity by done. rewrite Hrow.
    destruct ws as [| c r]; [done |]. cbn [orString].
    by rewrite trim_all_ws. }
  split; [exact HE |]. unfold entityNotSentinel. by rewrite HE.
Qed.

(** An absent or empty Entity becomes the sentinel, and the filter drops
    the record. *)
Lemma empty_entity_excluded (config : Config) (row : Row) :
  ~ In kEntity (List.map snd (columnMap config)) ->
  row !! kEntity = None \/ row !! kEntity = Some [] ->
  normalizeRow config row !! kEntity = Some (VStr sentinel)
  /\ keepRow config (normalizeRow config row) = false.
Proof.
  intros Hk Hrow.
  assert (HE : normalizeRow config row !! kEntity = Some (VStr sentinel)).
  { rewrite normalizeRow_Entity by done.
    destruct Hrow as [-> | ->]; reflexivity. }
  split; [exact HE |].
  unfold keepRow, entityNotSentinel. rewrite HE.
  by rewrite bool_decide_eq_true_2.
Qed.

Lemma processRows_excludes (config : Config) (rows : list Row) (r : Record) :
  keepRow config r = false -> ~ In r (processRows config rows).
Proof.
  intros Hk Hin. unfold processRows in Hin.
  apply filter_In in Hin as [_ Hin]. congruence.
Qed.

End NormalizerFacts.

(** C1: a raw record whose Entity is empty or only white space is claimed
    to normalise to the sentinel Entity and to be dropped by the filter.
    The code substitutes the sentinel before it trims, so the row
    [{Entity: "   ", Year: "2010", Coverage: "42.5"}] normalises to the
    empty Entity and stays in [data]. *)
Theorem blank_entity_is_retained (host : Host) :
  normalizeRow exampleConfig rowBlankEntity !! kEntity = Some (VStr [])
  /\ keepRow exampleConfig (normalizeRow exampleConfig rowBlankEntity) = true
  /\ processRows exampleConfig [rowBlankEntity]
     = [normalizeRow exampleConfig rowBlankEntity].
Proof.
  assert (HE : normalizeRow exampleConfig rowBlankEntity !! kEntity
               = Some (VStr [])).
  { rewrite normalizeRow_Entity; [reflexivity |].
    intros [H | []]. vm_compute in H. discriminate. }
  assert (HY : yearNumber (normalizeRow exampleConfig rowBlankEntity)
               = number_of_Z 2010).
  { rewrite normalizeRow_Year; [reflexivity |].
    intros [H | []]. vm_compute in H. discriminate. }
  assert (HK : keepRow exampleConfig (normalizeRow exampleConfig rowBlankEntity)
               = true).
  { unfold keepRow, entityNotSentinel. rewrite HE, HY. reflexivity. }
  split; [exact HE | split; [exact HK |]].
  unfold processRows. cbn [List.map List.filter]. by rewrite HK.
Qed.




(** C5: for every pair (originalHeader, semanticName) of a column mapping
    whose semantic names are distinct, the normalised record holds under
    semanticName the [parseFloat] of the raw text under originalHeader, and
    0 when that text is absent or does not parse ([NaN]); a parse of -0 is
    held as 0.  The normaliser is a total function: no field raises. *)
Theorem column_value_stored (host : Host) (config : Config) (row : Row)
    (original newName : jsstring) :
  List.NoDup (List.map snd (columnMap config)) ->
  In (original, newName) (columnMap config) ->
  parseFloat (str "undefined") = NaN ->
  exists x,
    normalizeRow config row !! newName = Some (VNum x)
    /\ (isNaN (parseFloat (ToString (row !! original))) = true -> x = posZero)
    /\ (row !! original = None -> x = posZero)
    /\ (isNaN (parseFloat (ToString (row !! original))) = false ->
        x = parseFloat (ToString (row !! original))
        \/ (parseFloat (ToString (row !! original)) = negZero /\ x = posZero)).
Proof.
  intros Hnd Hin Hundef.
  exists (orNumber (parseFloat (ToString (row !! original))) posZero).
  split; [by apply normalizeRow_column |].
  split; [| split].
  - destruct (parseFloat (ToString (row !! original)));
      try discriminate. reflexivity.
  - intros ->. cbn [ToString]. by rewrite Hundef.
  - destruct (parseFloat (ToString (row !! original))) as [[] | | |];
      intros HN; try discriminate; auto.
Qed.

Lemma column_value_stored_witness :
  exists x,
    @normalizeRow (exampleHost false false) exampleConfig rowBrazil
      !! str "coverage" = Some (VNum x)
    /\ (isNaN (exampleParseFloat (ToString (rowBrazil !! str "Coverage"))) = true ->
        x = posZero)
    /\ (rowBrazil !! str "Coverage" = None -> x = posZero)
    /\ (isNaN (exampleParseFloat (ToString (rowBrazil !! str "Coverage"))) = false ->
        x = exampleParseFloat (ToString (rowBrazil !! str "Coverage"))
        \/ (exampleParseFloat (ToString (rowBrazil !! str "Coverage")) = negZero
            /\ x = posZero)).
Proof.
  apply (column_value_stored (exampleHost false false) exampleConfig rowBrazil
           (str "Coverage") (str "coverage")).
  - repeat constructor. intros [].
  - left. reflexivity.
  - reflexivity.
Defined.




(** ** loadDataset *)

Section LoaderFacts.

Context {host : Host}.

Lemma keepRow_valid (config : Config) (r : Record) :
  keepRow config r = true -> validRecord config r.
Proof.
  unfold keepRow, validRecord, entityNotSentinel. intros H.
  apply andb_true_iff in H as [H Hle].
  apply andb_true_iff in H as [HE Hge].
  split; [| done].
  intros Heq. rewrite Heq in HE.
  by rewrite bool_decide_eq_true_2 in HE.
Qed.

Lemma processRows_valid (config : Config) (rows : list Row) :
  Forall (validRecord config) (processRows config rows).
Proof.
  apply List.Forall_forall. intros r Hin. unfold processRows in Hin.
  apply filter_In in Hin as [_ Hk]. by apply keepRow_valid.
Qed.

(** The [complete] callback leaves the dataset with the processed rows,
    provided [initializeFilters] does not write to [datasetsConfig]. *)
Lemma onComplete_configs (datasetKey : jsstring) (config : Config)
    (hasBtn : bool) (rows : list Row) (st st' : Store) :
  (forall k s,
     datasetsConfig (snd (initializeFilters k s)) = datasetsConfig s) ->
  onComplete datasetKey config hasBtn rows st = (inr tt, st') ->
  datasetsConfig st'
    = <[datasetKey := setData (processRows config rows) config]>
        (datasetsConfig st).
Proof.
  intros Hframe. unfold onComplete, mbind, M_bind, log, modify. cbn beta iota.
  match goal with
  | |- context [initializeFilters datasetKey ?s] =>
      pose proof (Hframe datasetKey s) as Hf;
      destruct (initializeFilters datasetKey s) as [[e | []] s1]
  end; [discriminate |].
  simpl in Hf. destruct hasBtn; intros H; inversion H; subst; simpl;
    exact Hf.
Qed.

Lemma tryBlock_configs (datasetKey : jsstring) (config : Config)
    (hasBtn : bool) (st st' : Store) :
  (forall k s,
     datasetsConfig (snd (initializeFilters k s)) = datasetsConfig s) ->
  tryBlock datasetKey config hasBtn st = (inr tt, st') ->
  exists rows,
    datasetsConfig st'
      = <[datasetKey := setData (processRows config rows) config]>
          (datasetsConfig st).
Proof.
  intros Hframe. unfold tryBlock, mbind, M_bind, doFetch, settle. cbn beta.
  destruct (fetch (requests st) (metadataPath config)) as [e | resp];
    [discriminate |].
  destruct (resp_json resp) as [e | metadata]; [discriminate |].
  destruct (citationText metadata datasetKey) as [e | citation];
    [discriminate |].
  unfold setTextContent at 1. cbn [elements].
  destruct (elements st !! el_citation config) as [el |]; [| discriminate].
  cbn [requests withElements].
  destruct (fetch _ (csvPath config)) as [e | resp2]; [discriminate |].
  destruct (resp_text resp2) as [e | csvText]; [discriminate |].
  destruct (Papa_parse csvText) as [rows | e]; [| discriminate].
  intros H. exists rows.
  by rewrite (onComplete_configs _ _ _ _ _ _ Hframe H).
Qed.

End LoaderFacts.

(** C3: after a call of [loadDataset] that ran its [try] block to the end,
    every record kept in [data] has an Entity other than the sentinel and a
    Year within [minYear, maxYear] of its configuration.
    [initializeFilters], which the sources do not define, is taken not to
    write to [datasetsConfig]. *)
Theorem loaded_data_is_valid (host : Host) (datasetKey : jsstring)
    (st st' : Store) :
  (forall k s,
     datasetsConfig (snd (initializeFilters k s)) = datasetsConfig s) ->
  loadDataset datasetKey st = (Loaded, st') ->
  exists config',
    datasetsConfig st' !! datasetKey = Some config'
    /\ Forall (validRecord config') (data config').
Proof.
  intros Hframe. unfold loadDataset.
  destruct (datasetsConfig st !! datasetKey) as [config |]; [| discriminate].
  unfold mbind, M_bind, setInnerHTML, log, modify. cbn beta iota.
  destruct (elements st !! el_loader config) as [el |]; [| discriminate].
  cbn beta iota.
  destruct (tryBlock _ _ _ _) as [[e | []] st2] eqn:Htry; [discriminate |].
  intros H. inversion H; subst st2.
  apply tryBlock_configs in Htry as [rows Hc]; [| exact Hframe].
  exists (setData (processRows config rows) config).
  split.
  - rewrite Hc. apply lookup_insert_eq.
  - exact (processRows_valid config rows).
Qed.

Lemma loaded_data_is_valid_witness :
  exists config',
    datasetsConfig
      (snd (@loadDataset (exampleHost false false) (str "mpa") exampleStore))
      !! str "mpa" = Some config'
    /\ Forall (validRecord config') (data config').
Proof.
  apply (loaded_data_is_valid (exampleHost false false) (str "mpa")
           exampleStore).
  - intros k s. reflexivity.
  - vm_compute. reflexivity.
Defined.

Ltac store_simpl :=
  cbn [requests elements datasetsConfig applyBtns console
       withElements withConfigs withBtns fst snd].

(** C8, as stated: the server answers the CSV request with status 404.
    [fetch] fulfils with that response, its body is parsed as CSV and the
    load runs to its end like any other: the loader never shows an error
    message. *)
Lemma csv_http_error_is_loaded :
  ~ @csvFailureIsContained notFoundHost (str "mpa") exampleStore.
Proof.
  intros H. specialize (H exampleConfig).
  destruct H as [(el & e & Hel & Hcontent) _].
  - vm_compute. reflexivity.
  - exists exampleResponse,
      (JObj [(str "chart", JObj [(str "citation", JStr (str "OWID"))])]),
      (str "OWID").
    repeat split; try reflexivity.
    exists exampleElement. vm_compute. reflexivity.
  - left. reflexivity.
  - vm_compute in Hel. injection Hel as <-.
    vm_compute in Hcontent. discriminate Hcontent.
Qed.

(** What the load of the missing CSV leaves: the promise is fulfilled
    without an error, the loader keeps its loading text and is hidden, the
    apply button is enabled and [data] is the empty list of rows. *)
Example csv_http_error_outcome :
  let r := @loadDataset notFoundHost (str "mpa") exampleStore in
  fst r = Loaded
  /\ elements (snd r) !! str "mpa-loader"
     = Some (mkElement (Html (str "Carregando mpa...")) (str "none"))
  /\ applyBtns (snd r) !! str "mpa" = Some false
  /\ data <$> datasetsConfig (snd r) !! str "mpa" = Some [].
Proof. vm_compute. repeat split; reflexivity. Qed.

(** C8, amended: when the CSV request rejects, the reading of its body
    rejects or Papa Parse calls [error], the [catch] block handles the
    error: the loading indicator shows [Erro: <message>], [datasetsConfig]
    is unchanged (so [data] keeps its value, for this dataset and for every
    other one), and outside the loader and citation elements of this
    dataset the document and the apply buttons are as before. *)
Theorem csv_failure_is_contained (host : Host) (datasetKey : jsstring)
    (st : Store) (config : Config) (loaderEl : Element) (e : Error) :
  datasetsConfig st !! datasetKey = Some config ->
  elements st !! el_loader config = Some loaderEl ->
  metadataLoads datasetKey config st ->
  csvFails config (requests st ++ [metadataPath config]) e ->
  exists st',
    loadDataset datasetKey st = (Failed e, st')
    /\ datasetsConfig st' = datasetsConfig st
    /\ applyBtns st' = applyBtns st
    /\ (exists el, elements st' !! el_loader config = Some el
                   /\ content el = Html (str "Erro: " ++ message e))
    /\ (forall id, id <> el_loader config -> id <> el_citation config ->
          elements st' !! id = elements st !! id).
Proof.
  intros Hcfg Hloader (resp & metadata & citation & Hf & Hj & Hc & Hel) Hcsv.
  unfold loadDataset. rewrite Hcfg.
  unfold mbind, M_bind, setInnerHTML, log, modify. cbn beta iota.
  rewrite Hloader. cbn beta iota.
  unfold tryBlock, mbind, M_bind, doFetch, settle. cbn beta iota.
  store_simpl. rewrite Hf. cbn beta iota. rewrite Hj, Hc. cbn beta iota.
  unfold setTextContent at 1. store_simpl.
  assert (Hel' : is_Some (alter (setContent (Html
                   (str "Carregando " ++ replaceDashes datasetKey ++ str "...")))
                   (el_loader config) (elements st) !! el_citation config)).
  { rewrite lookup_alter. destruct Hel as [x Hx].
    case_decide as Heq; [| by rewrite Hx].
    rewrite <- Heq in Hx. rewrite Hx. by eexists. }
  destruct Hel' as [cel Hcel]. rewrite Hcel. store_simpl.
  unfold csvFails in Hcsv.
  set (finish := fun st2 : Store => snd (catchBlock datasetKey config e st2)).
  assert (Hfinal : forall st2,
            datasetsConfig st2 = datasetsConfig st ->
            applyBtns st2 = applyBtns st ->
            (forall id, id <> el_citation config ->
               elements st2 !! id
               = alter (setContent (Html
                   (str "Carregando " ++ replaceDashes datasetKey ++ str "...")))
                   (el_loader config) (elements st) !! id) ->
            is_Some (elements st2 !! el_loader config) ->
            datasetsConfig (finish st2) = datasetsConfig st
            /\ applyBtns (finish st2) = applyBtns st
            /\ (exists el, elements (finish st2) !! el_loader config = Some el
                           /\ content el = Html (str "Erro: " ++ message e))
            /\ (forall id, id <> el_loader config -> id <> el_citation config ->
                  elements (finish st2) !! id = elements st !! id)).
  { intros st2 H1 H2 H4 [el2 H3].
    unfold finish, catchBlock, mbind, M_bind, log, modify.
    cbn beta iota. store_simpl. repeat split; try done.
    - exists (setContent (Html (str "Erro: " ++ message e)) el2).
      split; [| reflexivity]. rewrite lookup_alter.
      case_decide; [| done]. by rewrite H3.
    - intros id Hid1 Hid2. rewrite lookup_alter.
      case_decide; [congruence |]. rewrite H4 by done.
      rewrite lookup_alter. case_decide; [congruence | done]. }
  assert (Hlo : is_Some (alter (setContent (Text citation)) (el_citation config)
             (alter (setContent (Html
                   (str "Carregando " ++ replaceDashes datasetKey ++ str "...")))
                   (el_loader config) (elements st)) !! el_loader config)).
  { rewrite lookup_alter. case_decide as Heq.
    - rewrite Heq, lookup_alter. case_decide; [| done].
      rewrite Hloader. by eexists.
    - rewrite lookup_alter. case_decide; [| done].
      rewrite Hloader. by eexists. }
  assert (Hoth : forall id, id <> el_citation config ->
            alter (setContent (Text citation)) (el_citation config)
             (alter (setContent (Html
                   (str "Carregando " ++ replaceDashes datasetKey ++ str "...")))
                   (el_loader config) (elements st)) !! id
            = alter (setContent (Html
                   (str "Carregando " ++ replaceDashes datasetKey ++ str "...")))
                   (el_loader config) (elements st) !! id).
  { intros id Hid. rewrite (lookup_alter _ _ (el_citation config)).
    case_decide; [congruence | done]. }
  destruct (fetch (requests st ++ [metadataPath config]) (csvPath config))
    as [e' | resp2] eqn:Hf2.
  - subst e'. eexists. split; [reflexivity |]. by apply Hfinal.
  - destruct (resp_text resp2) as [e' | text] eqn:Ht.
    + subst e'. eexists. split; [reflexivity |]. by apply Hfinal.
    + rewrite Hcsv. unfold throw.
      eexists. split; [reflexivity |]. by apply Hfinal.
Qed.

Lemma csv_failure_is_contained_witness :
  exists st',
    @loadDataset (exampleHost false true) (str "mpa") exampleStore
      = (Failed (mkError (str "Failed to fetch")), st')
    /\ datasetsConfig st' = datasetsConfig exampleStore
    /\ applyBtns st' = applyBtns exampleStore
    /\ (exists el, elements st' !! el_loader exampleConfig = Some el
                   /\ content el
                      = Html (str "Erro: " ++ message (mkError (str "Failed to fetch"))))
    /\ (forall id, id <> el_loader exampleConfig ->
          id <> el_citation exampleConfig ->
          elements st' !! id = elements exampleStore !! id).
Proof.
  apply (csv_failure_is_contained (exampleHost false true) (str "mpa")
           exampleStore exampleConfig exampleElement
           (mkError (str "Failed to fetch"))).
  - vm_compute. reflexivity.
  - vm_compute. reflexivity.
  - exists exampleResponse,
      (JObj [(str "chart", JObj [(str "citation", JStr (str "OWID"))])]),
      (str "OWID").
    repeat split; try reflexivity.
    exists exampleElement. vm_compute. reflexivity.
  - vm_compute. reflexivity.
Defined.

(** C2, as stated: with a metadata fetch that fails and a CSV that would
    load, the CSV is never requested. *)
Lemma metadata_failure_is_fatal :
  ~ @metadataFailureIsNotFatal (exampleHost true false) (str "mpa")
      exampleStore.
Proof.
  intros H.
  specialize (H exampleConfig (mkError (str "Failed to fetch"))).
  destruct H as [Hreq _].
  - vm_compute. reflexivity.
  - vm_compute. reflexivity.
  - vm_compute in Hreq. destruct Hreq as [E | []]. discriminate E.
Qed.

(** C2, amended: when the metadata fetch or its JSON parse fails, the load
    stops there.  The [catch] block handles the error: the CSV is not
    requested, [datasetsConfig] (and so [data]) is unchanged, the loading
    indicator shows [Erro: <message>] and no other element is written, the
    citation included.  The default citation [Fonte: <datasetKey>] is the
    text computed when the metadata is fetched and parsed and its
    [chart.citation] is missing or falsy. *)
Theorem metadata_failure_aborts_load (host : Host) (datasetKey : jsstring)
    (st : Store) (config : Config) (loaderEl : Element) (e : Error) :
  datasetsConfig st !! datasetKey = Some config ->
  elements st !! el_loader config = Some loaderEl ->
  metadataFails config st e ->
  (exists st',
     loadDataset datasetKey st = (Failed e, st')
     /\ requests st' = requests st ++ [metadataPath config]
     /\ datasetsConfig st' = datasetsConfig st
     /\ applyBtns st' = applyBtns st
     /\ elements st' !! el_loader config
        = Some (setContent (Html (str "Erro: " ++ message e)) loaderEl)
     /\ (forall id, id <> el_loader config ->
           elements st' !! id = elements st !! id))
  /\ (forall metadata c,
        chartCitation metadata = inr c -> jsonTruthy c = false ->
        citationText metadata datasetKey = inr (defaultCitation datasetKey)).
Proof.
  intros Hcfg Hloader Hmeta. split.
  - unfold loadDataset. rewrite Hcfg.
    unfold mbind, M_bind, setInnerHTML, log, modify. cbn beta iota.
    rewrite Hloader. cbn beta iota.
    unfold tryBlock, mbind, M_bind, doFetch, settle. cbn beta iota.
    store_simpl. unfold metadataFails in Hmeta.
    assert (Hfin : forall st2 : Store,
              requests st2 = requests st ++ [metadataPath config] ->
              datasetsConfig st2 = datasetsConfig st ->
              applyBtns st2 = applyBtns st ->
              elements st2
              = alter (setContent (Html
                  (str "Carregando " ++ replaceDashes datasetKey ++ str "...")))
                  (el_loader config) (elements st) ->
              let st' := snd (catchBlock datasetKey config e st2) in
              requests st' = requests st ++ [metadataPath config]
              /\ datasetsConfig st' = datasetsConfig st
              /\ applyBtns st' = applyBtns st
              /\ elements st' !! el_loader config
                 = Some (setContent (Html (str "Erro: " ++ message e)) loaderEl)
              /\ (forall id, id <> el_loader config ->
                    elements st' !! id = elements st !! id)).
    { intros st2 H1 H2 H3 H4.
      unfold catchBlock, mbind, M_bind, log, modify.
      cbn beta iota zeta. store_simpl. rewrite H4.
      repeat split; try done.
      - rewrite !lookup_alter. repeat case_decide; try done.
        by rewrite Hloader.
      - intros id Hid. rewrite !lookup_alter.
        repeat case_decide; congruence. }
    destruct (fetch (requests st) (metadataPath config)) as [e' | resp].
    + subst e'. eexists. split; [reflexivity |]. by apply Hfin.
    + rewrite Hmeta. eexists. split; [reflexivity |]. by apply Hfin.
  - intros metadata c Hc Hfalsy. unfold citationText.
    by rewrite Hc, Hfalsy.
Qed.

Lemma metadata_failure_aborts_load_witness :
  (exists st',
     @loadDataset (exampleHost true false) (str "mpa") exampleStore
       = (Failed (mkError (str "Failed to fetch")), st')
     /\ requests st' = requests exampleStore ++ [metadataPath exampleConfig]
     /\ datasetsConfig st' = datasetsConfig exampleStore
     /\ applyBtns st' = applyBtns exampleStore
     /\ elements st' !! el_loader exampleConfig
        = Some (setContent
                  (Html (str "Erro: " ++ message (mkError (str "Failed to fetch"))))
                  exampleElement)
     /\ (forall id, id <> el_loader exampleConfig ->
           elements st' !! id = elements exampleStore !! id))
  /\ (forall metadata c,
        @chartCitation (exampleHost true false) metadata = inr c ->
        jsonTruthy c = false ->
        @citationText (exampleHost true false) metadata (str "mpa")
          = inr (defaultCitation (str "mpa"))).
Proof.
  apply (metadata_failure_aborts_load (exampleHost true false) (str "mpa")
           exampleStore exampleConfig exampleElement
           (mkError (str "Failed to fetch"))).
  - vm_compute. reflexivity.
  - vm_compute. reflexivity.
  - vm_compute. reflexivity.
Defined.

(** ** initializeSliders *)

Lemma decimalValue_acc (ds : jsstring) (acc : Z) :
  forallb isDecimalDigit ds = true -> 0 <= acc ->
  0 <= fold_left (fun acc c => 10 * acc + Z.of_N (c - 48)) ds acc
    < (acc + 1) * 10 ^ Z.of_nat (length ds).
Proof.
  revert acc. induction ds as [| d ds IH]; intros acc Hds Hacc.
  - simpl. lia.
  - simpl in Hds. apply andb_true_iff in Hds as [Hd Hds].
    apply isDecimalDigit_range in Hd.
    cbn [fold_left length]. rewrite Nat2Z.inj_succ, Z.pow_succ_r by lia.
    specialize (IH (10 * acc + Z.of_N (d - 48)) Hds ltac:(lia)).
    assert (0 < 10 ^ Z.of_nat (length ds)) by (apply Z.pow_pos_nonneg; lia).
    nia.
Qed.

Lemma yearNumeral_digits (v : jsstring) :
  yearNumeral v = true ->
  v <> [] /\ forallb isDecimalDigit v = true /\ (length v <= 15)%nat.
Proof.
  unfold yearNumeral. destruct v as [| c r]; [discriminate |].
  intros H. apply andb_true_iff in H as [H1 H2%Nat.leb_le]. done.
Qed.

Lemma yearNumeral_bounds (v : jsstring) :
  yearNumeral v = true -> 0 <= decimalValue v < 2 ^ 53.
Proof.
  intros (_ & Hds & Hlen)%yearNumeral_digits.
  pose proof (decimalValue_acc v 0 Hds ltac:(lia)) as H.
  fold (decimalValue v) in H.
  assert (10 ^ Z.of_nat (length v) <= 10 ^ 15)
    by (apply Z.pow_le_mono_r; lia).
  assert (10 ^ 15 < 2 ^ 53) by (vm_compute; reflexivity).
  lia.
Qed.

Lemma digits_not_hex (v : jsstring) :
  forallb isDecimalDigit v = true -> startsHex v = false.
Proof.
  destruct v as [| c0 [| c1 r]]; try reflexivity. simpl.
  intros H. apply andb_true_iff in H as [_ H].
  apply andb_true_iff in H as [H1%isDecimalDigit_range _].
  apply andb_false_iff. right. apply orb_false_iff.
  split; apply N.eqb_neq; intros ->; vm_compute in H1; destruct H1 as [A B];
    try (by apply A); by apply B.
Qed.

(** A year numeral reads as the Number of the year. *)
Lemma parseInt_yearNumeral (v : jsstring) :
  yearNumeral v = true -> parseInt (Some v) = number_of_Z (decimalValue v).
Proof.
  intros (Hne & Hds & _)%yearNumeral_digits.
  pose proof (parseInt_decimal [] NoSign v [] eq_refl Hne Hds eq_refl) as H.
  rewrite app_nil_r in H. cbn [signText app] in H.
  rewrite H by (by apply digits_not_hex).
  destruct (decimalValue v =? 0) eqn:E.
  - apply Z.eqb_eq in E. rewrite E. reflexivity.
  - cbn [signValue]. f_equal. lia.
Qed.

Lemma decimalValue_snoc (ds : jsstring) (c : N) :
  decimalValue (ds ++ [c]) = 10 * decimalValue ds + Z.of_N (c - 48).
Proof. unfold decimalValue. by rewrite fold_left_app. Qed.

(** The digits written for [n] are those of [n], one per power of ten. *)
Lemma decimalDigits_spec (fuel k : nat) (n : Z) :
  (0 < k <= fuel)%nat -> 0 <= n < 10 ^ Z.of_nat k ->
  decimalDigits fuel n <> []
  /\ forallb isDecimalDigit (decimalDigits fuel n) = true
  /\ (length (decimalDigits fuel n) <= k)%nat
  /\ decimalValue (decimalDigits fuel n) = n.
Proof.
  revert k n. induction fuel as [| fuel IH]; intros k n Hk Hn; [lia |].
  cbn [decimalDigits]. destruct (n <? 10) eqn:E.
  - apply Z.ltb_lt in E. repeat split.
    + discriminate.
    + cbn [forallb]. rewrite andb_true_r. unfold isDecimalDigit.
      apply andb_true_iff. split; apply N.leb_le; lia.
    + simpl. lia.
    + unfold decimalValue. cbn [fold_left]. lia.
  - apply Z.ltb_ge in E.
    assert (Hk2 : (2 <= k)%nat).
    { destruct k as [| [| k]]; [lia | | lia]. simpl in Hn. lia. }
    assert (Hpow : 10 ^ Z.of_nat k = 10 * 10 ^ Z.of_nat (k - 1)).
    { replace (Z.of_nat k) with (Z.succ (Z.of_nat (k - 1))) by lia.
      apply Z.pow_succ_r. lia. }
    destruct (IH (k - 1)%nat (n / 10)) as (H1 & H2 & H3 & H4); [lia | |].
    { split; [apply Z.div_pos; lia |].
      apply Z.div_lt_upper_bound; lia. }
    pose proof (Z.mod_pos_bound n 10 ltac:(lia)) as Hm.
    repeat split.
    + intros H. apply app_eq_nil in H as [_ H]. discriminate.
    + rewrite forallb_app, H2. cbn [forallb andb]. rewrite andb_true_r.
      unfold isDecimalDigit. apply andb_true_iff.
      split; apply N.leb_le; lia.
    + rewrite length_app. simpl. lia.
    + rewrite decimalValue_snoc, H4.
      pose proof (Z.div_mod n 10 ltac:(lia)). lia.
Qed.

Lemma pow_10_15 : 10 ^ 15 = 1000000000000000.
Proof. reflexivity. Qed.

(** The numeral of a year is the text of a year, and denotes it. *)
Lemma numeral_year (z : Z) :
  0 <= z < 10 ^ 15 ->
  yearNumeral (numeral z) = true /\ decimalValue (numeral z) = z.
Proof.
  intros Hz. unfold numeral.
  destruct (z <? 0) eqn:E; [apply Z.ltb_lt in E; lia |].
  destruct (decimalDigits_spec 21 15 z ltac:(lia) Hz) as (H1 & H2 & H3 & H4).
  split; [| exact H4]. unfold yearNumeral.
  destruct (decimalDigits 21 z) as [| c r] eqn:Hd; [done |].
  rewrite H2. apply Nat.leb_le in H3. by rewrite H3.
Qed.

Lemma parseInt_numeral (z : Z) :
  0 <= z < 10 ^ 15 -> parseInt (Some (numeral z)) = number_of_Z z.
Proof.
  intros Hz. destruct (numeral_year z Hz) as [Hy Hd].
  by rewrite parseInt_yearNumeral, Hd.
Qed.

(** The listeners compare the texts of two years as the years compare. *)
Lemma numerals_compare (a b : Z) :
  0 <= a < 10 ^ 15 -> 0 <= b < 10 ^ 15 ->
  SFltb (parseInt (Some (numeral a))) (parseInt (Some (numeral b)))
  = (a <? b).
Proof.
  intros Ha Hb. rewrite !parseInt_numeral by done.
  assert (10 ^ 15 < 2 ^ 53) by reflexivity.
  apply SFltb_number_of_Z; lia.
Qed.

Lemma sanitize_in_range (lo hi v : Z) :
  lo <= hi -> lo <= sanitize lo hi v <= hi.
Proof.
  intros H. unfold sanitize.
  destruct (v <? lo) eqn:E1; [lia |]. apply Z.ltb_ge in E1.
  destruct (lo <=? hi) eqn:E2; [| apply Z.leb_gt in E2; lia].
  destruct (hi <? v) eqn:E3; cbn [andb]; [lia |].
  apply Z.ltb_ge in E3. lia.
Qed.

Lemma sanitize_id (lo hi v : Z) : lo <= v <= hi -> sanitize lo hi v = v.
Proof.
  intros H. unfold sanitize.
  destruct (v <? lo) eqn:E1; [apply Z.ltb_lt in E1; lia |].
  destruct (hi <? v) eqn:E3; [apply Z.ltb_lt in E3; lia |].
  by rewrite andb_false_r.
Qed.

Lemma sanitize_below (lo hi v : Z) : v < lo -> sanitize lo hi v = lo.
Proof.
  intros H. unfold sanitize.
  destruct (v <? lo) eqn:E1; [done | apply Z.ltb_ge in E1; lia].
Qed.

(** The effect of an [input] event of the min-year slider, the comparison
    of line 66 read on the years. *)
Lemma dispatch_MinInput (s : Sliders) (v : Z) :
  let this := setValue v (minYearSlider s) in
  0 <= range_value this < 10 ^ 15 ->
  0 <= range_value (maxYearSlider s) < 10 ^ 15 ->
  dispatch s (MinInput v)
  = if range_value (maxYearSlider s) <? range_value this
    then mkSliders this (setValue (range_value this) (maxYearSlider s))
                   (valueText this) (valueText this)
    else mkSliders this (maxYearSlider s) (valueText this) (maxYearDisplay s).
Proof.
  intros this Hthis Hmax. unfold dispatch, onMinInput.
  cbn [minYearSlider maxYearSlider minYearDisplay maxYearDisplay].
  fold this. unfold js_gt, valueText. by rewrite numerals_compare.
Qed.

(** The effect of an [input] event of the max-year slider, the comparison
    of line 73 read on the years. *)
Lemma dispatch_MaxInput (s : Sliders) (v : Z) :
  let this := setValue v (maxYearSlider s) in
  0 <= range_value this < 10 ^ 15 ->
  0 <= range_value (minYearSlider s) < 10 ^ 15 ->
  dispatch s (MaxInput v)
  = if range_value this <? range_value (minYearSlider s)
    then mkSliders (setValue (range_value this) (minYearSlider s)) this
                   (valueText this) (valueText this)
    else mkSliders (minYearSlider s) this (minYearDisplay s) (valueText this).
Proof.
  intros this Hthis Hmin. unfold dispatch, onMaxInput.
  cbn [minYearSlider maxYearSlider minYearDisplay maxYearDisplay].
  fold this. unfold js_lt, valueText. by rewrite numerals_compare.
Qed.

Lemma initializeSliders_ranges (s0 : Sliders) :
  sliderRanges (range_min (maxYearSlider s0)) (range_max (maxYearSlider s0))
    (initializeSliders s0).
Proof. unfold sliderRanges. cbn. repeat split; lia. Qed.

(** No listener changes a range, and the min-year slider stays within
    its own. *)
Lemma dispatch_ranges (lo hi : Z) (s : Sliders) (ev : SliderEvent) :
  sliderRanges lo hi s -> sliderRanges lo hi (dispatch s ev).
Proof.
  intros (Hmin & Hmax & Hv & Hlo & Hhi). unfold sliderRanges.
  destruct ev as [v | v].
  - unfold dispatch, onMinInput.
    cbn [minYearSlider maxYearSlider minYearDisplay maxYearDisplay].
    destruct (js_gt _ _);
      cbn [minYearSlider maxYearSlider setValue range_min range_max
           range_value];
      rewrite Hmin, Hmax;
      pose proof (sanitize_in_range 2000 2024 v ltac:(lia)); done.
  - unfold dispatch, onMaxInput.
    cbn [minYearSlider maxYearSlider minYearDisplay maxYearDisplay].
    destruct (js_lt _ _);
      cbn [minYearSlider maxYearSlider setValue range_min range_max
           range_value]; [| done].
    rewrite Hmin, Hmax.
    pose proof (sanitize_in_range 2000 2024
                  (sanitize (range_min (maxYearSlider s))
                            (range_max (maxYearSlider s)) v) ltac:(lia)).
    done.
Qed.

Lemma runEvents_ranges (lo hi : Z) (s : Sliders) (evs : list SliderEvent) :
  sliderRanges lo hi s -> sliderRanges lo hi (runEvents s evs).
Proof.
  unfold runEvents. revert s.
  induction evs as [| ev evs IH]; intros s Hs; simpl; [exact Hs |].
  apply IH. by apply dispatch_ranges.
Qed.

(** With a max-year slider that ranges from [lo] to [hi], where
    [2000 <= lo <= hi] and [2024 <= hi], an [input] event keeps the sliders
    ordered, and its listener moves the other slider to the new value
    exactly when the new value crosses it. *)
Lemma dispatch_clamps (lo hi : Z) (s : Sliders) (ev : SliderEvent) :
  2000 <= lo <= hi -> 2024 <= hi < 10 ^ 15 ->
  sliderRanges lo hi s ->
  lo <= range_value (maxYearSlider s) <= hi ->
  range_value (minYearSlider s) <= range_value (maxYearSlider s) ->
  (sliderRanges lo hi (dispatch s ev)
   /\ lo <= range_value (maxYearSlider (dispatch s ev)) <= hi
   /\ range_value (minYearSlider (dispatch s ev))
      <= range_value (maxYearSlider (dispatch s ev)))
  /\ match ev with
     | MinInput v =>
         range_value (minYearSlider (dispatch s ev)) = sanitize 2000 2024 v
         /\ range_value (maxYearSlider (dispatch s ev))
            = (if range_value (maxYearSlider s) <? sanitize 2000 2024 v
               then sanitize 2000 2024 v
               else range_value (maxYearSlider s))
     | MaxInput v =>
         range_value (maxYearSlider (dispatch s ev)) = sanitize lo hi v
         /\ range_value (minYearSlider (dispatch s ev))
            = (if sanitize lo hi v <? range_value (minYearSlider s)
               then sanitize lo hi v
               else range_value (minYearSlider s))
     end.
Proof.
  intros Hlo Hhi Hr Hmaxv Hord.
  split; [split; [by apply dispatch_ranges |] |];
    destruct Hr as (Hmin & Hmax & Hv & Hl & Hh); rewrite pow_10_15 in *.
  - destruct ev as [v | v].
    + pose proof (sanitize_in_range 2000 2024 v ltac:(lia)) as Hs.
      rewrite dispatch_MinInput
        by (cbn [setValue range_value]; rewrite ?Hmin, ?Hmax, ?pow_10_15; lia).
      cbn [setValue range_value]. rewrite Hmin, Hmax.
      destruct (_ <? _) eqn:E;
        cbn [minYearSlider maxYearSlider setValue range_value];
        rewrite ?Hmin, ?Hmax, ?Hl, ?Hh;
        [apply Z.ltb_lt in E | apply Z.ltb_ge in E; lia].
      rewrite (sanitize_id lo hi) by lia. lia.
    + pose proof (sanitize_in_range lo hi v ltac:(lia)) as Hs.
      rewrite dispatch_MaxInput
        by (cbn [setValue range_value]; rewrite ?Hl, ?Hh, ?pow_10_15; lia).
      cbn [setValue range_value]. rewrite Hl, Hh.
      destruct (_ <? _) eqn:E;
        cbn [minYearSlider maxYearSlider setValue range_value];
        rewrite ?Hmin, ?Hmax, ?Hl, ?Hh;
        [apply Z.ltb_lt in E | apply Z.ltb_ge in E; lia].
      rewrite (sanitize_id 2000 2024) by lia. lia.
  - destruct ev as [v | v].
    + pose proof (sanitize_in_range 2000 2024 v ltac:(lia)) as Hs.
      rewrite dispatch_MinInput
        by (cbn [setValue range_value]; rewrite ?Hmin, ?Hmax, ?pow_10_15; lia).
      cbn [setValue range_value]. rewrite Hmin, Hmax.
      destruct (_ <? _) eqn:E;
        cbn [minYearSlider maxYearSlider setValue range_value];
        rewrite ?Hmin, ?Hmax, ?Hl, ?Hh; [| done].
      apply Z.ltb_lt in E. by rewrite (sanitize_id lo hi) by lia.
    + pose proof (sanitize_in_range lo hi v ltac:(lia)) as Hs.
      rewrite dispatch_MaxInput
        by (cbn [setValue range_value]; rewrite ?Hl, ?Hh, ?pow_10_15; lia).
      cbn [setValue range_value]. rewrite Hl, Hh.
      destruct (_ <? _) eqn:E;
        cbn [minYearSlider maxYearSlider setValue range_value];
        rewrite ?Hmin, ?Hmax, ?Hl, ?Hh; [| done].
      apply Z.ltb_lt in E. by rewrite (sanitize_id 2000 2024) by lia.
Qed.

Lemma runEvents_ordered (lo hi : Z) (s : Sliders) (evs : list SliderEvent) :
  2000 <= lo <= hi -> 2024 <= hi < 10 ^ 15 ->
  sliderRanges lo hi s ->
  lo <= range_value (maxYearSlider s) <= hi ->
  range_value (minYearSlider s) <= range_value (maxYearSlider s) ->
  sliderRanges lo hi (runEvents s evs)
  /\ lo <= range_value (maxYearSlider (runEvents s evs)) <= hi
  /\ range_value (minYearSlider (runEvents s evs))
     <= range_value (maxYearSlider (runEvents s evs)).
Proof.
  intros Hlo Hhi. unfold runEvents. revert s.
  induction evs as [| ev evs IH]; intros s Hr Hm Ho; simpl; [done |].
  destruct (dispatch_clamps lo hi s ev Hlo Hhi Hr Hm Ho) as [(H1 & H2 & H3) _].
  by apply IH.
Qed.

Lemma initializeSliders_ordered (s0 : Sliders) :
  2000 <= range_min (maxYearSlider s0) <= range_max (maxYearSlider s0) ->
  2024 <= range_max (maxYearSlider s0) ->
  range_min (maxYearSlider s0)
    <= range_value (maxYearSlider (initializeSliders s0))
    <= range_max (maxYearSlider s0)
  /\ range_value (minYearSlider (initializeSliders s0))
     <= range_value (maxYearSlider (initializeSliders s0)).
Proof.
  intros Hlo Hhi. cbn.
  pose proof (sanitize_in_range (range_min (maxYearSlider s0))
                (range_max (maxYearSlider s0)) 2024 ltac:(lia)).
  lia.
Qed.

(** C9, as stated: on a page whose max-year slider ranges from 1990 to
    2024, the user moves that slider to 1990.  Line 74 assigns 1990 to the
    min-year slider, which lines 57-58 bound to 2000..2024: it stops at
    2000, above the max-year slider. *)
Lemma max_slider_range_breaks_order :
  ~ slidersStayOrdered (pageSliders 1990 2024).
Proof.
  intros H. specialize (H [MaxInput 1990]). vm_compute in H. discriminate H.
Qed.

(** C9, amended: on a page that gives the max-year slider a range from
    [lo] to [hi] with [2000 <= lo <= hi] and [2024 <= hi] (years below
    10^15), after [initializeSliders] and any sequence of [input] events
    the value of the min-year slider is less than or equal to the value of
    the max-year slider, and the listener of one more event leaves its own
    slider at the value the user gave it and moves the other slider to that
    value exactly when that value crosses it. *)
Theorem sliders_stay_ordered (s0 : Sliders) (evs : list SliderEvent)
    (ev : SliderEvent) :
  2000 <= range_min (maxYearSlider s0) <= range_max (maxYearSlider s0) ->
  2024 <= range_max (maxYearSlider s0) < 10 ^ 15 ->
  let s := runEvents (initializeSliders s0) evs in
  let s' := dispatch s ev in
  slidersOrdered s = true
  /\ slidersOrdered s' = true
  /\ match ev with
     | MinInput v =>
         range_value (minYearSlider s') = sanitize 2000 2024 v
         /\ range_value (maxYearSlider s')
            = (if range_value (maxYearSlider s) <? sanitize 2000 2024 v
               then sanitize 2000 2024 v
               else range_value (maxYearSlider s))
     | MaxInput v =>
         range_value (maxYearSlider s')
         = sanitize (range_min (maxYearSlider s0))
                    (range_max (maxYearSlider s0)) v
         /\ range_value (minYearSlider s')
            = (if sanitize (range_min (maxYearSlider s0))
                           (range_max (maxYearSlider s0)) v
                  <? range_value (minYearSlider s)
               then sanitize (range_min (maxYearSlider s0))
                             (range_max (maxYearSlider s0)) v
               else range_value (minYearSlider s))
     end.
Proof.
  intros Hlo Hhi s s'.
  destruct (initializeSliders_ordered s0 Hlo ltac:(lia)) as [Hm Ho].
  destruct (runEvents_ordered _ _ _ evs Hlo Hhi
              (initializeSliders_ranges s0) Hm Ho) as (Hr & Hm' & Ho').
  fold s in Hr, Hm', Ho'.
  destruct (dispatch_clamps _ _ s ev Hlo Hhi Hr Hm' Ho')
    as [(_ & _ & Ho'') Hev].
  fold s' in Ho'', Hev. unfold slidersOrdered.
  split; [by apply Z.leb_le |]. split; [by apply Z.leb_le |]. exact Hev.
Qed.

Lemma sliders_stay_ordered_witness :
  let s := runEvents (initializeSliders (pageSliders 2000 2024))
             [MinInput 2010; MaxInput 2005] in
  let s' := dispatch s (MaxInput 2001) in
  slidersOrdered s = true
  /\ slidersOrdered s' = true
  /\ range_value (maxYearSlider s') = sanitize 2000 2024 2001
  /\ range_value (minYearSlider s')
     = (if sanitize 2000 2024 2001 <? range_value (minYearSlider s)
        then sanitize 2000 2024 2001
        else range_value (minYearSlider s)).
Proof.
  apply (sliders_stay_ordered (pageSliders 2000 2024)
           [MinInput 2010; MaxInput 2005] (MaxInput 2001)).
  - simpl. lia.
  - simpl. split; [lia | reflexivity].
Defined.

(** ** The Range Filter *)

Module RangeFilterFacts.

Import RangeFilter.

Lemma orderedBounds_swapped (minYear maxYear : Z) :
  maxYear < minYear ->
  orderedBounds minYear maxYear = orderedBounds maxYear minYear.
Proof.
  intros H. unfold orderedBounds.
  destruct (maxYear <? minYear) eqn:E1; [| lia].
  destruct (minYear <? maxYear) eqn:E2; [lia | reflexivity].
Qed.

(** C6: with [minYear > maxYear] the Range Filter gives what it gives
    for the swapped bounds, namely the Records with Year in
    [maxYear, minYear]; a Record of [data] within the swapped bounds is
    in [filteredData], which is therefore not empty. *)
Theorem swapped_bounds_filter (ds : Dataset) (minYear maxYear : Z)
    (r : SRecord) :
  maxYear < minYear ->
  In r (ds_data ds) ->
  maxYear <= Year r <= minYear ->
  rangeFilter ds minYear maxYear = rangeFilter ds maxYear minYear
  /\ filteredData (fst (rangeFilter ds minYear maxYear))
     = List.filter (inRange maxYear minYear) (ds_data ds)
  /\ In r (filteredData (fst (rangeFilter ds minYear maxYear)))
  /\ filteredData (fst (rangeFilter ds minYear maxYear)) <> [].
Proof.
  intros Hlt Hin Hr.
  assert (Hf : filterByRange (ds_data ds) minYear maxYear
               = List.filter (inRange maxYear minYear) (ds_data ds)).
  { unfold filterByRange, orderedBounds.
    destruct (maxYear <? minYear) eqn:E; [reflexivity | lia]. }
  assert (Hm : In r (List.filter (inRange maxYear minYear) (ds_data ds))).
  { apply filter_In. split; [exact Hin |]. unfold inRange.
    apply andb_true_iff. split; apply Z.leb_le; lia. }
  split; [| split; [| split]].
  - unfold rangeFilter, filterByRange.
    by rewrite (orderedBounds_swapped minYear maxYear Hlt).
  - exact Hf.
  - cbn [rangeFilter fst filteredData]. by rewrite Hf.
  - cbn [rangeFilter fst filteredData]. rewrite Hf.
    intros Hnil. rewrite Hnil in Hm. destruct Hm.
Qed.

Lemma swapped_bounds_filter_witness :
  rangeFilter exampleDataset 2002 2001 = rangeFilter exampleDataset 2001 2002
  /\ filteredData (fst (rangeFilter exampleDataset 2002 2001))
     = List.filter (inRange 2001 2002) (ds_data exampleDataset)
  /\ In dataA2001 (filteredData (fst (rangeFilter exampleDataset 2002 2001)))
  /\ filteredData (fst (rangeFilter exampleDataset 2002 2001)) <> [].
Proof.
  apply (swapped_bounds_filter exampleDataset 2002 2001 dataA2001).
  - lia.
  - left. reflexivity.
  - simpl. lia.
Defined.

(** The worked example of the specification: range [2001, 2002] on the
    three Records gives the averages A: 15, B: 30 and the progress
    2001: 20, 2002: 20. *)
Example range_filter_tables :
  snd (rangeFilter exampleDataset 2001 2002)
  = mkTables [(str "A", number_of_Z 15); (str "B", number_of_Z 30)]
             [(2001, number_of_Z 20); (2002, number_of_Z 20)].
Proof. vm_compute. reflexivity. Qed.

End RangeFilterFacts.

(** The worked example of the specification: the row
    [{Entity: " Brazil ", Year: "2010", Coverage: "42.5"}] normalises to
    [{Entity: "Brazil", Year: 2010, coverage: 42.5}] and is retained. *)
Example brazil_row_retained :
  @processRows (exampleHost false false) exampleConfig [rowBrazil]
  = [ <[kEntity := VStr (str "Brazil")]>
        (<[kYear := VNum (number_of_Z 2010)]>
           (<[str "coverage" := VNum number_42_5]> ∅)) ].
Proof. vm_compute. reflexivity. Qed.

(** * Further properties of the code *)

(** ** The Row Normalizer, script.js lines 22-28 *)

Lemma forallb_rev {A} (f : A -> bool) (l : list A) :
  forallb f l = true -> forallb f (rev l) = true.
Proof.
  intros H. apply forallb_forall. intros x Hx%in_rev.
  by apply (proj1 (forallb_forall f l) H).
Qed.

Lemma hd_rev_last (s : jsstring) : hd 0%N (rev s) = List.last s 0%N.
Proof.
  induction s as [| c s IH]; [reflexivity |].
  destruct s as [| d s']; [reflexivity |].
  change (rev (c :: d :: s')) with (rev (d :: s') ++ [c]).
  change (List.last (c :: d :: s') 0%N) with (List.last (d :: s') 0%N).
  rewrite <- IH. destruct (rev (d :: s')) eqn:E; [| reflexivity].
  apply (f_equal (@length N)) in E. rewrite length_rev in E. discriminate.
Qed.

Lemma trimStart_core (ws t : jsstring) :
  forallb isWhiteSpace ws = true ->
  isWhiteSpace (hd 0%N t) = false ->
  trimStart (ws ++ t) = t.
Proof.
  intros Hws Ht. apply trimStart_app; [done |]. by destruct t.
Qed.

(** [trim] removes the white space around a text and nothing else. *)
Lemma trim_core (ws1 core ws2 : jsstring) :
  forallb isWhiteSpace ws1 = true ->
  forallb isWhiteSpace ws2 = true ->
  noOuterSpace core = true ->
  trim (ws1 ++ core ++ ws2) = core.
Proof.
  intros H1 H2 Hc. unfold noOuterSpace in Hc.
  apply andb_true_iff in Hc as [Hh%negb_true_iff Hl%negb_true_iff].
  unfold trim, trimEnd.
  destruct core as [| c core'].
  - cbn [app]. rewrite (trimStart_all_ws (ws1 ++ ws2)); [reflexivity |].
    rewrite forallb_app. by rewrite H1, H2.
  - rewrite (trimStart_core ws1 ((c :: core') ++ ws2)) by done.
    rewrite rev_app_distr.
    rewrite trimStart_core.
    + apply rev_involutive.
    + by apply forallb_rev.
    + by rewrite hd_rev_last.
Qed.

Section NormalizerMore.

Context {host : Host}.

(** X1: The Entity of a normalised record is the raw Entity without the white
    space around it: inner characters, inner white space included, are
    kept as they are. *)
Theorem entity_is_trimmed (config : Config) (row : Row)
    (ws1 core ws2 : jsstring) :
  ~ In kEntity (List.map snd (columnMap config)) ->
  row !! kEntity = Some (ws1 ++ core ++ ws2) ->
  forallb isWhiteSpace ws1 = true ->
  forallb isWhiteSpace ws2 = true ->
  core <> [] ->
  noOuterSpace core = true ->
  normalizeRow config row !! kEntity = Some (VStr core).
Proof.
  intros Hk Hrow H1 H2 Hne Hc.
  rewrite normalizeRow_Entity by done. rewrite Hrow.
  assert (Hs : orString (Some (ws1 ++ core ++ ws2)) sentinel
               = ws1 ++ core ++ ws2).
  { destruct (ws1 ++ core ++ ws2) eqn:E; [| reflexivity].
    apply app_eq_nil in E as [_ E]. apply app_eq_nil in E as [E _]. done. }
  rewrite Hs. by rewrite trim_core.
Qed.

(** X2: A row whose Entity is the sentinel text itself, with or without white
    space around it, is dropped like a row without Entity, whatever its
    Year. *)
Theorem literal_sentinel_excluded (config : Config) (row : Row)
    (ws1 ws2 : jsstring) (rows : list Row) :
  ~ In kEntity (List.map snd (columnMap config)) ->
  row !! kEntity = Some (ws1 ++ sentinel ++ ws2) ->
  forallb isWhiteSpace ws1 = true ->
  forallb isWhiteSpace ws2 = true ->
  keepRow config (normalizeRow config row) = false
  /\ ~ In (normalizeRow config row) (processRows config rows).
Proof.
  intros Hk Hrow H1 H2.
  assert (HE : normalizeRow config row !! kEntity = Some (VStr sentinel)).
  { apply (entity_is_trimmed config row ws1 sentinel ws2); try done. }
  assert (HK : keepRow config (normalizeRow config row) = false).
  { unfold keepRow, entityNotSentinel. rewrite HE.
    by rewrite bool_decide_eq_true_2. }
  split; [exact HK | by apply processRows_excludes].
Qed.

Lemma fold_insert_all (P : value -> Prop) (l : list (jsstring * value))
    (m : Record) :
  (forall kv, In kv l -> P (snd kv)) ->
  (forall k v, m !! k = Some v -> P v) ->
  forall k v,
    fold_left (fun m kv => <[fst kv := snd kv]> m) l m !! k = Some v -> P v.
Proof.
  revert m. induction l as [| [k' v'] l IH]; intros m Hl Hm k v; simpl.
  - apply Hm.
  - apply IH.
    + intros kv Hin. apply Hl. by right.
    + intros k0 v0. rewrite lookup_insert. case_decide.
      * intros [= <-]. apply (Hl (k', v')). by left.
      * apply Hm.
Qed.

Lemma orNumber_zero_clean (a : number) :
  orNumber a posZero <> NaN /\ orNumber a posZero <> negZero.
Proof. destruct a as [[] | [] | | [] ? ?]; split; discriminate. Qed.

(** X3: No Number held by a normalised record is NaN or -0, whatever the raw
    texts and whatever [parseFloat] returns: every failed parse and every
    zero is stored as +0. *)
Theorem record_numbers_are_clean (config : Config) (row : Row)
    (k : jsstring) (n : number) :
  normalizeRow config row !! k = Some (VNum n) ->
  n <> NaN /\ n <> negZero.
Proof.
  unfold normalizeRow. intros H.
  apply lookup_union_Some_raw in H as [H | [_ H]].
  - unfold fromEntries in H.
    apply (fold_insert_all
             (fun v => forall n, v = VNum n -> n <> NaN /\ n <> negZero)
             _ _) with (n := n) in H; [exact H | | | reflexivity].
    + intros kv Hin. apply in_map_iff in Hin as [[o nm] [<- _]].
      intros n0 [= <-]. apply orNumber_zero_clean.
    + intros k0 v0. by rewrite lookup_empty.
  - rewrite lookup_insert in H. case_decide; [discriminate |].
    rewrite lookup_insert in H. case_decide; [| by rewrite lookup_empty in H].
    injection H as <-. apply orNumber_zero_clean.
Qed.

Lemma fold_insert_dom (l : list (jsstring * value)) (m : Record)
    (k : jsstring) :
  is_Some (fold_left (fun m kv => <[fst kv := snd kv]> m) l m !! k)
  <-> In k (List.map fst l) \/ is_Some (m !! k).
Proof.
  revert m. induction l as [| [k' v'] l IH]; intros m; simpl.
  - tauto.
  - rewrite IH. rewrite lookup_insert. case_decide; subst.
    + split; [intros [? | ?]; auto | intros _; right; by eexists].
    + split; intros [? | ?]; auto. destruct H0; [congruence | auto].
Qed.

(** X4: The fields of a normalised record are [Entity], [Year] and the semantic
    names of the column mapping, whatever the row holds: a row with missing
    or extra columns yields a record of the same shape. *)
Theorem record_fields (config : Config) (row : Row) (k : jsstring) :
  is_Some (normalizeRow config row !! k)
  <-> k = kEntity \/ k = kYear \/ In k (List.map snd (columnMap config)).
Proof.
  unfold normalizeRow. rewrite lookup_union_is_Some.
  unfold fromEntries. rewrite fold_insert_dom, columnEntry_keys.
  rewrite lookup_empty, !lookup_insert_is_Some, lookup_empty.
  split.
  - intros [[? | [? ?]] | [? | [_ [? | [_ [? ?]]]]]]; auto; done.
  - intros [-> | [-> | ?]]; auto.
Qed.

(** X5: When a bound of the configuration is NaN (a bound that is missing reads
    as [undefined], which compares as NaN), no row is retained. *)
Theorem nan_bound_retains_nothing (config : Config) (rows : list Row) :
  isNaN (minYear config) = true \/ isNaN (maxYear config) = true ->
  processRows config rows = [].
Proof.
  intros Hnan. unfold processRows.
  induction (List.map (normalizeRow config) rows) as [| r l IH];
    [reflexivity |].
  cbn [List.filter].
  assert (HK : keepRow config r = false).
  { unfold keepRow, js_ge, js_le.
    destruct Hnan as [-> | ->]; rewrite ?andb_false_r; reflexivity. }
  by rewrite HK.
Qed.

End NormalizerMore.

Lemma entity_is_trimmed_witness :
  @normalizeRow (exampleHost false false) exampleConfig rowBrazil !! kEntity
  = Some (VStr (str "Brazil")).
Proof.
  apply (entity_is_trimmed (host := exampleHost false false) exampleConfig
           rowBrazil (str " ") (str "Brazil") (str " ")).
  - intros [E | []]. vm_compute in E. discriminate.
  - vm_compute. reflexivity.
  - reflexivity.
  - reflexivity.
  - discriminate.
  - reflexivity.
Defined.

Lemma literal_sentinel_excluded_witness :
  @keepRow exampleConfig
     (@normalizeRow (exampleHost false false) exampleConfig rowSentinelName)
    = false
  /\ ~ In (@normalizeRow (exampleHost false false) exampleConfig
             rowSentinelName)
          (@processRows (exampleHost false false) exampleConfig
             [rowBrazil; rowSentinelName]).
Proof.
  apply (literal_sentinel_excluded (host := exampleHost false false)
           exampleConfig rowSentinelName (str " ") (str " ")
           [rowBrazil; rowSentinelName]).
  - intros [E | []]. vm_compute in E. discriminate.
  - vm_compute. reflexivity.
  - reflexivity.
  - reflexivity.
Defined.

Lemma record_numbers_are_clean_witness :
  number_42_5 <> NaN /\ number_42_5 <> negZero.
Proof.
  apply (record_numbers_are_clean (host := exampleHost false false)
           exampleConfig rowBrazil (str "coverage") number_42_5).
  vm_compute. reflexivity.
Defined.

Lemma nan_bound_retains_nothing_witness :
  @processRows (exampleHost false false) configNoBounds [rowBrazil] = [].
Proof.
  apply (nan_bound_retains_nothing (host := exampleHost false false)
           configNoBounds [rowBrazil]).
  left. reflexivity.
Defined.

(** ** loadDataset, script.js lines 1-43 *)

Section LoaderMore.

Context {host : Host}.

(** X6: A promise of [loadDataset] that rejects has written, logged and
    requested nothing: what rejects it is thrown before line 5 has
    written the loader.  The promise rejects when the dataset key has no
    configuration or the loader element is missing. *)
Theorem rejected_load_writes_nothing (datasetKey : jsstring) (st : Store) :
  (forall e st', loadDataset datasetKey st = (Rejected e, st') -> st' = st)
  /\ (datasetsConfig st !! datasetKey = None
      \/ (exists config,
            datasetsConfig st !! datasetKey = Some config
            /\ elements st !! el_loader config = None) ->
      exists e, loadDataset datasetKey st = (Rejected e, st)).
Proof.
  split.
  - intros e st'. unfold loadDataset.
    destruct (datasetsConfig st !! datasetKey) as [config |] eqn:Hc.
    + unfold mbind, M_bind, setInnerHTML, log, modify. cbn beta iota.
      destruct (elements st !! el_loader config) as [el |] eqn:Hl.
      * cbn beta iota.
        destruct (tryBlock _ _ _ _) as [[e' | []] st2]; discriminate.
      * by intros [= <- <-].
    + by intros [= <- <-].
  - intros [Hc | (config & Hc & Hl)]; unfold loadDataset; rewrite Hc.
    + by eexists.
    + unfold mbind, M_bind, setInnerHTML. rewrite Hl. by eexists.
Qed.

(** What the [try] block leaves when it runs to its end: the rows are those
    Papa Parse returned for the text of the CSV response. *)
Lemma tryBlock_loaded (datasetKey : jsstring) (config : Config)
    (hasBtn : bool) (st st' : Store) :
  (forall k s,
     datasetsConfig (snd (initializeFilters k s)) = datasetsConfig s) ->
  tryBlock datasetKey config hasBtn st = (inr tt, st') ->
  exists resp text rows,
    fetch (requests st ++ [metadataPath config]) (csvPath config) = inr resp
    /\ resp_text resp = inr text
    /\ Papa_parse text = Complete rows
    /\ datasetsConfig st'
       = <[datasetKey := setData (processRows config rows) config]>
           (datasetsConfig st).
Proof.
  intros Hframe. unfold tryBlock, mbind, M_bind, doFetch, settle.
  cbn beta iota.
  destruct (fetch (requests st) (metadataPath config)) as [e | resp0];
    [discriminate |].
  destruct (resp_json resp0) as [e | metadata]; [discriminate |].
  destruct (citationText metadata datasetKey) as [e | citation];
    [discriminate |].
  unfold setTextContent at 1. store_simpl.
  destruct (elements st !! el_citation config) as [el |]; [| discriminate].
  store_simpl.
  destruct (fetch _ (csvPath config)) as [e | resp] eqn:Hf; [discriminate |].
  destruct (resp_text resp) as [e | text] eqn:Ht; [discriminate |].
  destruct (Papa_parse text) as [rows | e] eqn:Hp; [| discriminate].
  intros H. exists resp, text, rows. repeat split; try done.
  by rewrite (onComplete_configs _ _ _ _ _ _ Hframe H).
Qed.

(** X7: A load that runs to its end replaces [data] wholesale by the processed
    rows of the CSV it fetched (the data held before plays no part), and
    leaves the configuration of every other dataset as it was.
    [initializeFilters] is taken not to write to [datasetsConfig]. *)
Theorem load_replaces_data (datasetKey : jsstring) (st st' : Store) :
  (forall k s,
     datasetsConfig (snd (initializeFilters k s)) = datasetsConfig s) ->
  loadDataset datasetKey st = (Loaded, st') ->
  exists config resp text rows,
    datasetsConfig st !! datasetKey = Some config
    /\ fetch (requests st ++ [metadataPath config]) (csvPath config) = inr resp
    /\ resp_text resp = inr text
    /\ Papa_parse text = Complete rows
    /\ datasetsConfig st' !! datasetKey
       = Some (setData (processRows config rows) config)
    /\ (forall other, other <> datasetKey ->
          datasetsConfig st' !! other = datasetsConfig st !! other).
Proof.
  intros Hframe. unfold loadDataset.
  destruct (datasetsConfig st !! datasetKey) as [config |] eqn:Hc;
    [| discriminate].
  unfold mbind, M_bind, setInnerHTML, log, modify. cbn beta iota.
  destruct (elements st !! el_loader config) as [el |]; [| discriminate].
  cbn beta iota.
  destruct (tryBlock _ _ _ _) as [[e | []] st2] eqn:Htry; [discriminate |].
  intros [= <-].
  apply tryBlock_loaded in Htry as (resp & text & rows & Hf & Ht & Hp & Hd);
    [| exact Hframe].
  store_simpl. exists config, resp, text, rows.
  repeat split; try done.
  - rewrite Hd. apply lookup_insert_eq.
  - intros other Hne. rewrite Hd. by apply lookup_insert_ne.
Qed.

Lemma tryBlock_buttons (datasetKey : jsstring) (config : Config)
    (hasBtn : bool) (st st' : Store) (r : Error + unit) :
  (forall k s, applyBtns (snd (initializeFilters k s)) = applyBtns s) ->
  tryBlock datasetKey config hasBtn st = (r, st') ->
  applyBtns st'
  = match r with
    | inr _ => if hasBtn then <[datasetKey := false]> (applyBtns st)
               else applyBtns st
    | inl _ => applyBtns st
    end.
Proof.
  intros Hframe. unfold tryBlock, mbind, M_bind, doFetch, settle.
  cbn beta iota.
  destruct (fetch (requests st) (metadataPath config)) as [e | resp0];
    [by intros [= <- <-] |].
  destruct (resp_json resp0) as [e | metadata]; [by intros [= <- <-] |].
  destruct (citationText metadata datasetKey) as [e | citation];
    [by intros [= <- <-] |].
  unfold setTextContent at 1. store_simpl.
  destruct (elements st !! el_citation config) as [el |];
    [| by intros [= <- <-]].
  store_simpl.
  destruct (fetch _ (csvPath config)) as [e | resp]; [by intros [= <- <-] |].
  destruct (resp_text resp) as [e | text]; [by intros [= <- <-] |].
  destruct (Papa_parse text) as [rows | e]; [| by intros [= <- <-]].
  unfold onComplete, mbind, M_bind, log, modify. cbn beta iota.
  match goal with
  | |- context [initializeFilters datasetKey ?s] =>
      pose proof (Hframe datasetKey s) as Hf;
      destruct (initializeFilters datasetKey s) as [[e | []] s1]
  end; simpl in Hf.
  - by intros [= <- <-].
  - destruct hasBtn; intros [= <- <-]; store_simpl; by rewrite Hf.
Qed.

(** X8: The apply button of a dataset is enabled by a load that runs to its
    end and by no other: after a failed or rejected load every button is as
    before; a button that does not exist is never created.
    [initializeFilters] is taken not to write to the buttons. *)
Theorem apply_button_rule (datasetKey : jsstring) (st st' : Store)
    (out : LoadOutcome) :
  (forall k s, applyBtns (snd (initializeFilters k s)) = applyBtns s) ->
  loadDataset datasetKey st = (out, st') ->
  applyBtns st'
  = match out with
    | Loaded =>
        if bool_decide (is_Some (applyBtns st !! datasetKey))
        then <[datasetKey := false]> (applyBtns st)
        else applyBtns st
    | _ => applyBtns st
    end.
Proof.
  intros Hframe. unfold loadDataset.
  destruct (datasetsConfig st !! datasetKey) as [config |];
    [| by intros [= <- <-]].
  unfold mbind, M_bind, setInnerHTML, log, modify. cbn beta iota.
  destruct (elements st !! el_loader config) as [el |];
    [| by intros [= <- <-]].
  cbn beta iota.
  destruct (tryBlock _ _ _ _) as [r st2] eqn:Htry.
  apply tryBlock_buttons in Htry; [| exact Hframe].
  store_simpl.
  destruct r as [e | []]; intros [= <- <-].
  - unfold catchBlock, mbind, M_bind, log, modify. cbn beta iota.
    store_simpl. exact Htry.
  - exact Htry.
Qed.

End LoaderMore.

Lemma load_replaces_data_witness :
  exists config resp text rows,
    datasetsConfig exampleStore !! str "mpa" = Some config
    /\ @fetch (exampleHost false false)
         (requests exampleStore ++ [metadataPath config]) (csvPath config)
       = inr resp
    /\ resp_text resp = inr text
    /\ @Papa_parse (exampleHost false false) text = Complete rows
    /\ datasetsConfig
         (snd (@loadDataset (exampleHost false false) (str "mpa")
                 exampleStore)) !! str "mpa"
       = Some (setData (@processRows (exampleHost false false) config rows)
                 config)
    /\ (forall other, other <> str "mpa" ->
          datasetsConfig
            (snd (@loadDataset (exampleHost false false) (str "mpa")
                    exampleStore)) !! other
          = datasetsConfig exampleStore !! other).
Proof.
  apply (load_replaces_data (host := exampleHost false false) (str "mpa")
           exampleStore).
  - intros k s. reflexivity.
  - vm_compute. reflexivity.
Defined.

Lemma apply_button_rule_witness :
  applyBtns
    (snd (@loadDataset (exampleHost false false) (str "mpa") exampleStore))
  = if bool_decide (is_Some (applyBtns exampleStore !! str "mpa"))
    then <[str "mpa" := false]> (applyBtns exampleStore)
    else applyBtns exampleStore.
Proof.
  apply (apply_button_rule (host := exampleHost false false) (str "mpa")
           exampleStore _ Loaded).
  - intros k s. reflexivity.
  - vm_compute. reflexivity.
Defined.

Section LoaderDisplay.

Context {host : Host}.

Lemma display_alter_content (c : Content) (i j : jsstring)
    (m : gmap jsstring Element) :
  styleDisplay <$> (alter (setContent c) i m !! j) = styleDisplay <$> (m !! j).
Proof.
  rewrite lookup_alter. case_decide; [subst |]; by destruct (m !! j).
Qed.

Lemma display_alter_display (d i j : jsstring) (m : gmap jsstring Element) :
  styleDisplay <$> (alter (setDisplay d) i m !! j)
  = if bool_decide (j = i) then (fun _ => d) <$> (m !! j)
    else styleDisplay <$> (m !! j).
Proof.
  rewrite lookup_alter. case_decide; [subst |].
  - rewrite bool_decide_eq_true_2 by done. by destruct (m !! j).
  - rewrite bool_decide_eq_false_2 by done. reflexivity.
Qed.

Lemma tryBlock_displays (datasetKey : jsstring) (config : Config)
    (hasBtn : bool) (st st' : Store) (r : Error + unit) (id : jsstring) :
  (forall k s, elements (snd (initializeFilters k s)) = elements s) ->
  tryBlock datasetKey config hasBtn st = (r, st') ->
  styleDisplay <$> (elements st' !! id)
  = match r with
    | inr _ =>
        if bool_decide (id = el_loader config)
        then (fun _ => str "none") <$> (elements st !! id)
        else styleDisplay <$> (elements st !! id)
    | inl _ => styleDisplay <$> (elements st !! id)
    end.
Proof.
  intros Hframe. unfold tryBlock, mbind, M_bind, doFetch, settle.
  cbn beta iota.
  destruct (fetch (requests st) (metadataPath config)) as [e | resp0];
    [by intros [= <- <-] |].
  destruct (resp_json resp0) as [e | metadata]; [by intros [= <- <-] |].
  destruct (citationText metadata datasetKey) as [e | citation];
    [by intros [= <- <-] |].
  unfold setTextContent at 1. store_simpl.
  destruct (elements st !! el_citation config) as [el |];
    [| by intros [= <- <-]].
  store_simpl.
  destruct (fetch _ (csvPath config)) as [e | resp];
    [intros [= <- <-]; store_simpl; apply display_alter_content |].
  destruct (resp_text resp) as [e | text];
    [intros [= <- <-]; store_simpl; apply display_alter_content |].
  destruct (Papa_parse text) as [rows | e];
    [| intros [= <- <-]; store_simpl; apply display_alter_content].
  unfold onComplete, mbind, M_bind, log, modify. cbn beta iota.
  match goal with
  | |- context [initializeFilters datasetKey ?s] =>
      pose proof (Hframe datasetKey s) as Hf;
      destruct (initializeFilters datasetKey s) as [[e | []] s1]
  end; simpl in Hf.
  - intros [= <- <-]. rewrite Hf. apply display_alter_content.
  - assert (Hgoal :
      styleDisplay <$>
        (alter (setDisplay (str "none")) (el_loader config) (elements s1) !! id)
      = (if bool_decide (id = el_loader config)
         then (fun _ => str "none") <$> (elements st !! id)
         else styleDisplay <$> (elements st !! id))).
    { rewrite display_alter_display, Hf.
      destruct (decide (id = el_loader config)) as [Heq | Hne].
      - rewrite !bool_decide_eq_true_2 by done. subst id.
        rewrite lookup_alter. case_decide as Hc; [rewrite Hc |];
          by destruct (elements st !! el_loader config).
      - rewrite !bool_decide_eq_false_2 by done.
        apply display_alter_content. }
    destruct hasBtn; intros [= <- <-]; store_simpl; exact Hgoal.
Qed.

(** X9: The loading indicator is hidden ([display: none]) by a load that runs
    to its end and by no other, and no other element is ever hidden or
    shown: after a failed or rejected load every element has the display it
    had.  [initializeFilters] is taken not to write to the elements. *)
Theorem loader_hidden_rule (datasetKey : jsstring) (st st' : Store)
    (out : LoadOutcome) (id : jsstring) :
  (forall k s, elements (snd (initializeFilters k s)) = elements s) ->
  loadDataset datasetKey st = (out, st') ->
  styleDisplay <$> (elements st' !! id)
  = match out, datasetsConfig st !! datasetKey with
    | Loaded, Some config =>
        if bool_decide (id = el_loader config)
        then (fun _ => str "none") <$> (elements st !! id)
        else styleDisplay <$> (elements st !! id)
    | _, _ => styleDisplay <$> (elements st !! id)
    end.
Proof.
  intros Hframe. unfold loadDataset.
  destruct (datasetsConfig st !! datasetKey) as [config |];
    [| by intros [= <- <-]].
  unfold mbind, M_bind, setInnerHTML, log, modify. cbn beta iota.
  destruct (elements st !! el_loader config) as [el |];
    [| by intros [= <- <-]].
  cbn beta iota.
  destruct (tryBlock _ _ _ _) as [r st2] eqn:Htry.
  apply (tryBlock_displays _ _ _ _ _ _ id) in Htry; [| exact Hframe].
  revert Htry. store_simpl. intros Htry.
  destruct r as [e | []]; intros [= <- <-].
  - unfold catchBlock, mbind, M_bind, log, modify. cbn beta iota.
    store_simpl. rewrite display_alter_content, Htry.
    apply display_alter_content.
  - rewrite Htry.
    destruct (decide (id = el_loader config)) as [Heq | Hne].
    + rewrite !bool_decide_eq_true_2 by done. subst id.
      rewrite lookup_alter, decide_True by done.
      by destruct (elements st !! el_loader config).
    + rewrite !bool_decide_eq_false_2 by done.
      apply display_alter_content.
Qed.

End LoaderDisplay.

Lemma loader_hidden_rule_witness :
  styleDisplay <$>
    (elements
       (snd (@loadDataset (exampleHost false false) (str "mpa") exampleStore))
     !! str "mpa-loader")
  = match Loaded, datasetsConfig exampleStore !! str "mpa" with
    | Loaded, Some config =>
        if bool_decide (str "mpa-loader" = el_loader config)
        then (fun _ => str "none") <$> (elements exampleStore !! str "mpa-loader")
        else styleDisplay <$> (elements exampleStore !! str "mpa-loader")
    | _, _ => styleDisplay <$> (elements exampleStore !! str "mpa-loader")
    end.
Proof.
  apply (loader_hidden_rule (host := exampleHost false false) (str "mpa")
           exampleStore _ Loaded (str "mpa-loader")).
  - intros k s. reflexivity.
  - vm_compute. reflexivity.
Defined.

(** ** initializeSliders, part_001 lines 49-78 *)

(** An [input] event keeps each label at the value of its slider, on a
    page whose max-year slider cannot leave the range of the other. *)
Lemma dispatch_labels (lo hi : Z) (s : Sliders) (ev : SliderEvent) :
  2000 <= lo <= hi -> 2024 <= hi < 10 ^ 15 ->
  sliderRanges lo hi s ->
  lo <= range_value (maxYearSlider s) <= hi ->
  labelsMirror s -> labelsMirror (dispatch s ev).
Proof.
  intros Hlo Hhi (Hmin & Hmax & Hv & Hl & Hh) Hm [L1 L2].
  rewrite pow_10_15 in *. unfold labelsMirror. destruct ev as [v | v].
  - pose proof (sanitize_in_range 2000 2024 v ltac:(lia)) as Hs.
    rewrite dispatch_MinInput
      by (cbn [setValue range_value]; rewrite ?Hmin, ?Hmax, ?pow_10_15; lia).
    cbn [setValue range_value]. rewrite Hmin, Hmax.
    destruct (_ <? _) eqn:E;
      cbn [minYearSlider maxYearSlider minYearDisplay maxYearDisplay];
      [| done].
    apply Z.ltb_lt in E. split; [done |].
    unfold valueText, setValue. cbn [range_value]. rewrite Hmin, Hmax, Hl, Hh.
    by rewrite (sanitize_id lo hi) by lia.
  - pose proof (sanitize_in_range lo hi v ltac:(lia)) as Hs.
    rewrite dispatch_MaxInput
      by (cbn [setValue range_value]; rewrite ?Hl, ?Hh, ?pow_10_15; lia).
    cbn [setValue range_value]. rewrite Hl, Hh.
    destruct (_ <? _) eqn:E;
      cbn [minYearSlider maxYearSlider minYearDisplay maxYearDisplay];
      [| done].
    apply Z.ltb_lt in E. split; [| done].
    unfold valueText, setValue. cbn [range_value]. rewrite Hmin, Hmax, Hl, Hh.
    by rewrite (sanitize_id 2000 2024) by lia.
Qed.

(** X10: On a page whose max-year slider ranges from [lo] to [hi] with
    [2000 <= lo <= 2024 <= hi], after [initializeSliders] and any sequence
    of [input] events each label shows the value of its slider: when a
    listener pushes the other slider, the text it writes to that slider's
    label is the value that slider took. *)
Theorem labels_mirror_values (s0 : Sliders) (evs : list SliderEvent) :
  2000 <= range_min (maxYearSlider s0) <= 2024 ->
  2024 <= range_max (maxYearSlider s0) < 10 ^ 15 ->
  labelsMirror (runEvents (initializeSliders s0) evs).
Proof.
  intros Hlo Hhi.
  assert (Hlo' : 2000 <= range_min (maxYearSlider s0)
                 <= range_max (maxYearSlider s0)) by lia.
  destruct (initializeSliders_ordered s0 Hlo' ltac:(lia)) as [Hm Ho].
  assert (Hinit : labelsMirror (initializeSliders s0)).
  { split; [reflexivity |]. unfold valueText. cbn.
    by rewrite sanitize_id by lia. }
  pose proof (initializeSliders_ranges s0) as Hr.
  revert Hr Hm Ho Hinit. unfold runEvents.
  generalize (initializeSliders s0) as s.
  induction evs as [| ev evs IH]; intros s Hr Hm Ho HL; simpl; [exact HL |].
  destruct (dispatch_clamps _ _ s ev Hlo' Hhi Hr Hm Ho) as [(H1 & H2 & H3) _].
  apply IH; try done. by apply (dispatch_labels _ _ s ev Hlo' Hhi).
Qed.

Lemma labels_mirror_values_witness :
  labelsMirror
    (runEvents (initializeSliders (pageSliders 2000 2024))
       [MaxInput 2001; MinInput 2010]).
Proof.
  apply (labels_mirror_values (pageSliders 2000 2024)
           [MaxInput 2001; MinInput 2010]).
  - simpl. lia.
  - simpl. split; [lia | reflexivity].
Defined.

(** X11: Whatever the page gives and whatever the events, once
    [initializeSliders] has run the min-year slider ranges over 2000..2024
    and holds a value within that range, and the max-year slider keeps the
    range of the page: lines 57-58 bound one slider only, and no listener
    writes a bound. *)
Theorem slider_ranges_are_kept (s0 : Sliders) (evs : list SliderEvent) :
  sliderRanges (range_min (maxYearSlider s0)) (range_max (maxYearSlider s0))
    (runEvents (initializeSliders s0) evs).
Proof. apply runEvents_ranges, initializeSliders_ranges. Qed.

(** X12: When the max-year slider is moved to a year below 2000 that its
    range allows, the listener pushes the min-year slider, which stops at
    its minimum 2000, and writes the lower year to both labels: the
    min-year slider is then above the max-year slider and its label shows
    a year it does not hold. *)
Theorem push_below_2000_is_clamped (s0 : Sliders) (evs : list SliderEvent)
    (v : Z) :
  range_min (maxYearSlider s0) <= v <= range_max (maxYearSlider s0) ->
  0 <= v < 2000 ->
  let s' := dispatch (runEvents (initializeSliders s0) evs) (MaxInput v) in
  range_value (maxYearSlider s') = v
  /\ range_value (minYearSlider s') = 2000
  /\ minYearDisplay s' = numeral v
  /\ maxYearDisplay s' = numeral v.
Proof.
  intros Hr Hv.
  destruct (runEvents_ranges _ _ _ evs (initializeSliders_ranges s0))
    as (Hmin & Hmax & Hmv & Hl & Hh).
  cbn zeta.
  rewrite dispatch_MaxInput;
    cbn [setValue range_value]; rewrite ?Hl, ?Hh, ?sanitize_id by done;
    rewrite ?pow_10_15; try lia.
  destruct (_ <? _) eqn:E; [| apply Z.ltb_ge in E; lia].
  cbn [minYearSlider maxYearSlider minYearDisplay maxYearDisplay setValue
       range_value].
  unfold valueText, setValue. cbn [range_value].
  rewrite Hmin, Hmax, Hl, Hh.
  rewrite (sanitize_below 2000 2024) by lia.
  by rewrite sanitize_id by lia.
Qed.

Lemma push_below_2000_is_clamped_witness :
  let s' := dispatch (runEvents (initializeSliders (pageSliders 1990 2024)) [])
              (MaxInput 1990) in
  range_value (maxYearSlider s') = 1990
  /\ range_value (minYearSlider s') = 2000
  /\ minYearDisplay s' = numeral 1990
  /\ maxYearDisplay s' = numeral 1990.
Proof.
  apply (push_below_2000_is_clamped (pageSliders 1990 2024) [] 1990).
  - simpl. lia.
  - lia.
Defined.

(** ** The configuration of a section, part_001 lines 14-34 *)

(** X13: The element ids of the sections never collide: two ids built for
    datasets [k1], [k2] and properties [r1], [r2] of [elements] are equal
    only if the datasets and the properties are the same, whatever the
    keys (a key may itself contain a dash or end like an id). *)
Theorem element_ids_injective (k1 k2 : jsstring) (r1 r2 : ElementRole) :
  elementAt r1 (sectionElements k1) = elementAt r2 (sectionElements k2) ->
  k1 = k2 /\ r1 = r2.
Proof.
  intros H. apply (f_equal (@rev N)) in H.
  destruct r1, r2; cbn [elementAt sectionElements e_loader e_entities
    e_minYear e_maxYear e_minYearDisplay e_maxYearDisplay e_trendChart
    e_dataTable e_avgTable e_progressTable e_dataWarning e_citation] in H;
    rewrite !rev_app_distr in H; simpl in H; simplify_eq;
    (split; [| reflexivity]);
    match goal with
    | Hr : rev _ = rev _ |- _ =>
        apply (f_equal (@rev N)) in Hr; by rewrite !rev_involutive in Hr
    end.
Qed.

Lemma element_ids_injective_witness :
  str "mpa" = str "mpa" /\ RLoader = RLoader.
Proof.
  apply (element_ids_injective (str "mpa") (str "mpa") RLoader RLoader).
  reflexivity.
Defined.

(** ** loadDatasetData, part_001 lines 81-98 *)

Ltac page_simpl :=
  cbn [pg_configs pg_nodes pg_byId pg_description pg_console pg_requests
       writeNode fst snd].

Section PageLoaderFacts.

Context {host : Host}.

Lemma writeDescription_frame (datasetKey : jsstring) (metadata : json)
    (pg pg' : Page) (r : Error + unit) :
  writeDescription datasetKey metadata pg = (r, pg') ->
  pg_configs pg' = pg_configs pg /\ pg_byId pg' = pg_byId pg
  /\ pg_description pg' = pg_description pg
  /\ pg_requests pg' = pg_requests pg /\ pg_console pg' = pg_console pg.
Proof.
  unfold writeDescription.
  destruct (chartProperty metadata (str "subtitle"));
    [intros [= ? ?]; by subst |].
  destruct (pg_description pg) eqn:E; intros [= ? ?]; by subst.
Qed.

Lemma writeCitation_frame (config : SectionConfig) (metadata : json)
    (pg pg' : Page) (r : Error + unit) :
  writeCitation config metadata pg = (r, pg') ->
  pg_configs pg' = pg_configs pg /\ pg_byId pg' = pg_byId pg
  /\ pg_description pg' = pg_description pg
  /\ pg_requests pg' = pg_requests pg /\ pg_console pg' = pg_console pg.
Proof.
  unfold writeCitation.
  destruct (chartProperty metadata (str "citation"));
    [intros [= ? ?]; by subst |].
  destruct (pg_byId pg !! _); intros [= ? ?]; by subst.
Qed.

Lemma pageTryBlock_frame (datasetKey : jsstring) (config : SectionConfig)
    (pg pg' : Page) (r : Error + unit) :
  pageTryBlock datasetKey config pg = (r, pg') ->
  pg_configs pg' = pg_configs pg /\ pg_byId pg' = pg_byId pg
  /\ pg_description pg' = pg_description pg
  /\ pg_requests pg' = pg_requests pg ++ [metadataUrl datasetKey].
Proof.
  unfold pageTryBlock.
  destruct (fetch _ _) as [e | resp]; [intros [= ? ?]; by subst |].
  destruct (resp_json resp) as [e | metadata]; [intros [= ? ?]; by subst |].
  destruct (writeDescription _ _ _) as [[e | []] pg2] eqn:Hd;
    apply writeDescription_frame in Hd as (H1 & H2 & H3 & H4 & _);
    revert H1 H2 H3 H4; page_simpl; intros H1 H2 H3 H4.
  - intros [= ? ?]. by subst.
  - intros Hc. apply writeCitation_frame in Hc as (G1 & G2 & G3 & G4 & _).
    by rewrite G1, G2, G3, G4.
Qed.

(** X14: [loadDatasetData] loads no data: whatever the outcome, [datasetsConfig]
    (with every [data] and [filteredData]) is as before.  It sends one
    request, for [/api/metadata/<datasetKey>], and none when the promise
    rejects. *)
Theorem loadDatasetData_loads_no_data (datasetKey : jsstring) (pg : Page) :
  pg_configs (snd (loadDatasetData datasetKey pg)) = pg_configs pg
  /\ pg_requests (snd (loadDatasetData datasetKey pg))
     = match fst (loadDatasetData datasetKey pg) with
       | Rejected _ => pg_requests pg
       | _ => pg_requests pg ++ [metadataUrl datasetKey]
       end.
Proof.
  unfold loadDatasetData.
  destruct (pg_configs pg !! datasetKey) as [config |]; [| done].
  destruct (pg_byId pg !! _) as [loader |]; [| done].
  destruct (pageTryBlock _ _ _) as [[e | []] pg2] eqn:Ht;
    apply pageTryBlock_frame in Ht as (H1 & _ & _ & H4);
    revert H1 H4; page_simpl; intros H1 H4; unfold pageCatchBlock;
    page_simpl; done.
Qed.

Lemma alter_setContent_twice (c1 c2 : Content) (n : nat)
    (m : gmap nat Element) :
  alter (setContent c2) n (alter (setContent c1) n m)
  = alter (setContent c2) n m.
Proof.
  apply map_eq. intros i. destruct (decide (n = i)) as [<- | Hne].
  - rewrite !lookup_alter_eq. by destruct (m !! n).
  - by rewrite !lookup_alter_ne.
Qed.

(** X15: When the metadata fetch rejects or its body is not JSON, the load
    fails: the loader shows [Erro ao carregar <datasetKey>: <message>], the
    error is logged, and no other element is written, the description and
    the citation included. *)
Theorem page_metadata_failure (datasetKey : jsstring) (pg : Page)
    (config : SectionConfig) (loader : nat) (e : Error) :
  pg_configs pg !! datasetKey = Some config ->
  pg_byId pg !! e_loader (sc_elements config) = Some loader ->
  match fetch (pg_requests pg) (metadataUrl datasetKey) with
  | inl e' => e' = e
  | inr resp => resp_json resp = inl e
  end ->
  fst (loadDatasetData datasetKey pg) = Failed e
  /\ pg_nodes (snd (loadDatasetData datasetKey pg))
     = alter (setContent
                (Html (str "Erro ao carregar " ++ datasetKey ++ str ": "
                       ++ message e)))
             loader (pg_nodes pg)
  /\ pg_console (snd (loadDatasetData datasetKey pg))
     = pg_console pg ++ [PageError datasetKey e].
Proof.
  intros Hc Hl Hf. unfold loadDatasetData. rewrite Hc, Hl.
  unfold pageTryBlock. page_simpl.
  destruct (fetch _ _) as [e' | resp].
  - subst e'. unfold pageCatchBlock. page_simpl.
    by rewrite alter_setContent_twice.
  - rewrite Hf. unfold pageCatchBlock. page_simpl.
    by rewrite alter_setContent_twice.
Qed.

(** X16: A load whose metadata is fetched and parsed writes the description and
    the citation, each with its own default when [chart] or the property
    is missing or falsy, and leaves the loader at [Carregando
    <datasetKey>...]: this function never clears the loading text.  The
    description element is the first of its class, the same one for every
    dataset. *)
Theorem page_metadata_success (datasetKey : jsstring) (pg : Page)
    (config : SectionConfig) (loader description citation : nat)
    (resp : Response) (metadata : json) (sub cit : option json) :
  pg_configs pg !! datasetKey = Some config ->
  pg_byId pg !! e_loader (sc_elements config) = Some loader ->
  pg_description pg = Some description ->
  pg_byId pg !! e_citation (sc_elements config) = Some citation ->
  fetch (pg_requests pg) (metadataUrl datasetKey) = inr resp ->
  resp_json resp = inr metadata ->
  chartProperty metadata (str "subtitle") = inr sub ->
  chartProperty metadata (str "citation") = inr cit ->
  fst (loadDatasetData datasetKey pg) = Loaded
  /\ pg_nodes (snd (loadDatasetData datasetKey pg))
     = alter (setContent (Text (textOr cit citationUnavailable))) citation
         (alter (setContent
                   (Text (textOr sub (defaultDescription datasetKey))))
            description
            (alter (setContent
                      (Html (str "Carregando " ++ datasetKey ++ str "...")))
               loader (pg_nodes pg)))
  /\ pg_console (snd (loadDatasetData datasetKey pg)) = pg_console pg.
Proof.
  intros Hc Hl Hd Hci Hf Hj Hs Hct. unfold loadDatasetData.
  rewrite Hc, Hl. unfold pageTryBlock. page_simpl. rewrite Hf, Hj.
  unfold writeDescription. rewrite Hs. page_simpl. rewrite Hd.
  unfold writeCitation. rewrite Hct. page_simpl. rewrite Hci.
  page_simpl. done.
Qed.

(** X17: When the citation element is missing, the description has already
    been written when the load fails: the failure is reported in the
    loader and the new description stays. *)
Theorem page_citation_missing (datasetKey : jsstring) (pg : Page)
    (config : SectionConfig) (loader description : nat)
    (resp : Response) (metadata : json) (sub cit : option json) :
  pg_configs pg !! datasetKey = Some config ->
  pg_byId pg !! e_loader (sc_elements config) = Some loader ->
  pg_description pg = Some description ->
  pg_byId pg !! e_citation (sc_elements config) = None ->
  fetch (pg_requests pg) (metadataUrl datasetKey) = inr resp ->
  resp_json resp = inr metadata ->
  chartProperty metadata (str "subtitle") = inr sub ->
  chartProperty metadata (str "citation") = inr cit ->
  description <> loader ->
  fst (loadDatasetData datasetKey pg) = Failed (typeError (str "textContent"))
  /\ nodeContent (snd (loadDatasetData datasetKey pg)) description
     = (fun _ => Text (textOr sub (defaultDescription datasetKey)))
         <$> (pg_nodes pg !! description)
  /\ nodeContent (snd (loadDatasetData datasetKey pg)) loader
     = (fun _ => Html (str "Erro ao carregar " ++ datasetKey ++ str ": "
                       ++ message (typeError (str "textContent"))))
         <$> (pg_nodes pg !! loader).
Proof.
  intros Hc Hl Hd Hci Hf Hj Hs Hct Hne. unfold loadDatasetData.
  rewrite Hc, Hl. unfold pageTryBlock. page_simpl. rewrite Hf, Hj.
  unfold writeDescription. rewrite Hs. page_simpl. rewrite Hd.
  unfold writeCitation. rewrite Hct. page_simpl. rewrite Hci.
  unfold pageCatchBlock, nodeContent. page_simpl.
  split; [reflexivity | split].
  - rewrite lookup_alter_ne by done. rewrite lookup_alter_eq.
    rewrite lookup_alter_ne by done. by destruct (pg_nodes pg !! description).
  - rewrite lookup_alter_eq. rewrite lookup_alter_ne by done.
    rewrite lookup_alter_eq. by destruct (pg_nodes pg !! loader).
Qed.

End PageLoaderFacts.

Lemma page_metadata_failure_witness :
  fst (@loadDatasetData (pageHost true) (str "mpa") (examplePage true))
    = Failed (mkError (str "Failed to fetch"))
  /\ pg_nodes (snd (@loadDatasetData (pageHost true) (str "mpa")
                      (examplePage true)))
     = alter (setContent
                (Html (str "Erro ao carregar " ++ str "mpa" ++ str ": "
                       ++ message (mkError (str "Failed to fetch")))))
             0%nat (pg_nodes (examplePage true))
  /\ pg_console (snd (@loadDatasetData (pageHost true) (str "mpa")
                        (examplePage true)))
     = pg_console (examplePage true)
       ++ [PageError (str "mpa") (mkError (str "Failed to fetch"))].
Proof.
  apply (page_metadata_failure (str "mpa") (examplePage true)
           (sectionConfig (str "mpa")) 0%nat
           (mkError (str "Failed to fetch"))).
  - vm_compute. reflexivity.
  - vm_compute. reflexivity.
  - vm_compute. reflexivity.
Defined.

Lemma page_metadata_success_witness :
  fst (@loadDatasetData (pageHost false) (str "mpa") (examplePage true))
    = Loaded
  /\ pg_nodes (snd (@loadDatasetData (pageHost false) (str "mpa")
                      (examplePage true)))
     = alter (setContent (Text (@textOr (pageHost false) None
                                  citationUnavailable))) 2%nat
         (alter (setContent
                   (Text (@textOr (pageHost false) (Some (JStr (str "MPA")))
                            (defaultDescription (str "mpa")))))
            1%nat
            (alter (setContent
                      (Html (str "Carregando " ++ str "mpa" ++ str "...")))
               0%nat (pg_nodes (examplePage true))))
  /\ pg_console (snd (@loadDatasetData (pageHost false) (str "mpa")
                        (examplePage true)))
     = pg_console (examplePage true).
Proof.
  apply (page_metadata_success (str "mpa") (examplePage true)
           (sectionConfig (str "mpa")) 0%nat 1%nat 2%nat
           (mkResponse
              (inr (JObj [(str "chart",
                           JObj [(str "subtitle", JStr (str "MPA"))])]))
              (inr []) true)
           (JObj [(str "chart", JObj [(str "subtitle", JStr (str "MPA"))])])
           (Some (JStr (str "MPA"))) None);
    vm_compute; reflexivity.
Defined.

Lemma page_citation_missing_witness :
  fst (@loadDatasetData (pageHost false) (str "mpa") (examplePage false))
    = Failed (@typeError (pageHost false) (str "textContent"))
  /\ nodeContent (snd (@loadDatasetData (pageHost false) (str "mpa")
                         (examplePage false))) 1%nat
     = (fun _ => Text (@textOr (pageHost false) (Some (JStr (str "MPA")))
                         (defaultDescription (str "mpa"))))
         <$> (pg_nodes (examplePage false) !! 1%nat)
  /\ nodeContent (snd (@loadDatasetData (pageHost false) (str "mpa")
                         (examplePage false))) 0%nat
     = (fun _ => Html (str "Erro ao carregar " ++ str "mpa" ++ str ": "
                       ++ message (@typeError (pageHost false)
                                     (str "textContent"))))
         <$> (pg_nodes (examplePage false) !! 0%nat).
Proof.
  apply (page_citation_missing (str "mpa") (examplePage false)
           (sectionConfig (str "mpa")) 0%nat 1%nat
           (mkResponse
              (inr (JObj [(str "chart",
                           JObj [(str "subtitle", JStr (str "MPA"))])]))
              (inr []) true)
           (JObj [(str "chart", JObj [(str "subtitle", JStr (str "MPA"))])])
           (Some (JStr (str "MPA"))) None);
    try (vm_compute; reflexivity).
  discriminate.
Defined.

(** ** loadDataset: failures, and the filter on years *)

Section LoaderFailures.

Context {host : Host}.

(** X18: Every error thrown inside the [try] block, whatever its origin
    (metadata, citation element, CSV, Papa Parse, [initializeFilters]), is
    caught: the promise is fulfilled, the error is the last entry of the
    console and the loader shows [Erro: <message>].  [initializeFilters] is
    taken not to write to the elements. *)
Theorem failure_is_reported (datasetKey : jsstring) (st st' : Store)
    (e : Error) :
  (forall k s, elements (snd (initializeFilters k s)) = elements s) ->
  loadDataset datasetKey st = (Failed e, st') ->
  exists config,
    datasetsConfig st !! datasetKey = Some config
    /\ content <$> (elements st' !! el_loader config)
       = Some (Html (str "Erro: " ++ message e))
    /\ List.last (console st') (LogStart datasetKey) = LogError datasetKey e.
Proof.
  intros Hframe. unfold loadDataset.
  destruct (datasetsConfig st !! datasetKey) as [config |] eqn:Hc;
    [| discriminate].
  unfold mbind, M_bind, setInnerHTML, log, modify. cbn beta iota.
  destruct (elements st !! el_loader config) as [el |] eqn:Hl;
    [| discriminate].
  cbn beta iota.
  destruct (tryBlock _ _ _ _) as [[e' | []] st2] eqn:Htry; [| discriminate].
  intros [= <- <-]. exists config. split; [reflexivity |].
  apply (tryBlock_displays _ _ _ _ _ _ (el_loader config)) in Htry;
    [| exact Hframe].
  revert Htry. store_simpl. rewrite lookup_alter_eq, Hl. cbn [fmap option_fmap option_map].
  intros Htry.
  unfold catchBlock, mbind, M_bind, log, modify. cbn beta iota. store_simpl.
  split.
  - rewrite lookup_alter_eq.
    destruct (elements st2 !! el_loader config); [reflexivity | discriminate].
  - apply last_last.
Qed.

(** X19: The citation is written before the CSV is requested, so it stays
    when the CSV then fails: the citation element shows the text taken
    from the metadata (or the default) next to the error in the loader. *)
Theorem citation_survives_csv_failure (datasetKey : jsstring) (st : Store)
    (config : Config) (loaderEl citationEl : Element) (resp : Response)
    (metadata : json) (citation : jsstring) (e : Error) :
  datasetsConfig st !! datasetKey = Some config ->
  elements st !! el_loader config = Some loaderEl ->
  elements st !! el_citation config = Some citationEl ->
  el_citation config <> el_loader config ->
  fetch (requests st) (metadataPath config) = inr resp ->
  resp_json resp = inr metadata ->
  citationText metadata datasetKey = inr citation ->
  csvFails config (requests st ++ [metadataPath config]) e ->
  fst (loadDataset datasetKey st) = Failed e
  /\ elements (snd (loadDataset datasetKey st)) !! el_citation config
     = Some (setContent (Text citation) citationEl).
Proof.
  intros Hcfg Hloader Hcit Hne Hf Hj Hc Hcsv.
  cut (exists st',
         loadDataset datasetKey st = (Failed e, st')
         /\ elements st' !! el_citation config
            = Some (setContent (Text citation) citationEl)).
  { intros (st' & -> & H). done. }
  unfold loadDataset. rewrite Hcfg.
  unfold mbind, M_bind, setInnerHTML, log, modify. cbn beta iota.
  rewrite Hloader. cbn beta iota.
  unfold tryBlock, mbind, M_bind, doFetch, settle. cbn beta iota.
  store_simpl. rewrite Hf. cbn beta iota. rewrite Hj, Hc. cbn beta iota.
  unfold setTextContent at 1. store_simpl.
  rewrite lookup_alter_ne by done. rewrite Hcit. store_simpl.
  unfold csvFails in Hcsv.
  assert (Hfin : forall st2 : Store,
            elements st2
            = alter (setContent (Text citation)) (el_citation config)
                (alter (setContent (Html
                   (str "Carregando " ++ replaceDashes datasetKey ++ str "...")))
                   (el_loader config) (elements st)) ->
            elements (snd (catchBlock datasetKey config e st2))
              !! el_citation config
            = Some (setContent (Text citation) citationEl)).
  { intros st2 H2. unfold catchBlock, mbind, M_bind, log, modify.
    cbn beta iota. store_simpl. rewrite H2.
    rewrite lookup_alter_ne by done. rewrite lookup_alter_eq.
    rewrite lookup_alter_ne by done. by rewrite Hcit. }
  destruct (fetch (requests st ++ [metadataPath config]) (csvPath config))
    as [e' | resp2].
  - subst e'. eexists. split; [reflexivity |]. by apply Hfin.
  - destruct (resp_text resp2) as [e' | text].
    + subst e'. eexists. split; [reflexivity |]. by apply Hfin.
    + rewrite Hcsv. unfold throw.
      eexists. split; [reflexivity |]. by apply Hfin.
Qed.

Lemma number_of_Z_not_NaN (z : Z) : isNaN (number_of_Z z) = false.
Proof.
  destruct (decide (z = 0)) as [-> | Hz]; [reflexivity |].
  pose proof (number_of_Z_truthy z Hz) as H.
  by destruct (number_of_Z z).
Qed.

(** X20: With integer bounds, the filter on years keeps a row whose Year
    is the text of a year exactly when the year lies between the bounds,
    both included (the Entity apart). *)
Theorem year_filter_inclusive (config : Config) (row : Row) (v : jsstring)
    (lo hi : Z) :
  ~ In kYear (List.map snd (columnMap config)) ->
  row !! kYear = Some v ->
  yearNumeral v = true ->
  minYear config = number_of_Z lo -> 0 <= lo < 2 ^ 53 ->
  maxYear config = number_of_Z hi -> 0 <= hi < 2 ^ 53 ->
  keepRow config (normalizeRow config row)
  = entityNotSentinel (normalizeRow config row)
    && (lo <=? decimalValue v) && (decimalValue v <=? hi).
Proof.
  intros Hk Hrow Hv Hmin Hlo Hmax Hhi.
  pose proof (yearNumeral_bounds v Hv) as Hb.
  unfold keepRow. rewrite normalizeRow_Year by done.
  rewrite Hrow, parseInt_yearNumeral by done.
  rewrite orNumber_number_of_Z, Hmin, Hmax.
  unfold js_ge, js_le. rewrite !number_of_Z_not_NaN.
  rewrite !SFltb_number_of_Z by done. cbn [negb andb].
  rewrite !Z.leb_antisym. reflexivity.
Qed.

End LoaderFailures.

Lemma failure_is_reported_witness :
  exists config,
    datasetsConfig exampleStore !! str "mpa" = Some config
    /\ content <$>
         (elements
            (snd (@loadDataset (exampleHost false true) (str "mpa")
                    exampleStore)) !! el_loader config)
       = Some (Html (str "Erro: " ++ message (mkError (str "Failed to fetch"))))
    /\ List.last
         (console
            (snd (@loadDataset (exampleHost false true) (str "mpa")
                    exampleStore)))
         (LogStart (str "mpa"))
       = LogError (str "mpa") (mkError (str "Failed to fetch")).
Proof.
  apply (failure_is_reported (host := exampleHost false true) (str "mpa")
           exampleStore).
  - intros k s. reflexivity.
  - vm_compute. reflexivity.
Defined.

Lemma citation_survives_csv_failure_witness :
  fst (@loadDataset (exampleHost false true) (str "mpa") exampleStore)
    = Failed (mkError (str "Failed to fetch"))
  /\ elements
       (snd (@loadDataset (exampleHost false true) (str "mpa") exampleStore))
       !! el_citation exampleConfig
     = Some (setContent (Text (str "OWID")) exampleElement).
Proof.
  apply (citation_survives_csv_failure (host := exampleHost false true)
           (str "mpa") exampleStore exampleConfig exampleElement
           exampleElement exampleResponse
           (JObj [(str "chart", JObj [(str "citation", JStr (str "OWID"))])])
           (str "OWID") (mkError (str "Failed to fetch")));
    try (vm_compute; reflexivity).
  vm_compute. discriminate.
Defined.

Lemma year_filter_inclusive_witness :
  @keepRow exampleConfig
     (@normalizeRow (exampleHost false false) exampleConfig rowBrazil)
  = entityNotSentinel
      (@normalizeRow (exampleHost false false) exampleConfig rowBrazil)
    && (2000 <=? decimalValue (str "2010"))
    && (decimalValue (str "2010") <=? 2024).
Proof.
  apply (year_filter_inclusive (host := exampleHost false false)
           exampleConfig rowBrazil (str "2010") 2000 2024).
  - intros [E | []]. vm_compute in E. discriminate.
  - vm_compute. reflexivity.
  - reflexivity.
  - reflexivity.
  - split; [lia | reflexivity].
  - reflexivity.
  - split; [lia | reflexivity].
Defined.
